(** * klippy/extras/adxl345.py: bulk acquisition from an ADXL345 accelerometer

    A shallow embedding of the [ADXL345] class: the mutable fields of
    [self] are a record threaded through a state-and-exception monad, the
    calls into the collaborators (SPI bus, MCU command queue, G-code
    responder, the CSV file) are recorded as a trace of events, and the
    values those collaborators hand back are read from an environment.
    Python's [int] is [Z], Python's [float] is the primitive binary64
    [float]. *)

From Stdlib Require Import ZArith List Lia Bool String Sorted.
From Stdlib.Strings Require Import Byte.
From Stdlib Require Import PrimFloat SpecFloat FloatOps.
Import ListNotations.
Open Scope Z_scope.
Set Warnings "-inexact-float".

(** ** Python values *)

Module Py.

(** The exceptions the module can raise.  [command_error] carries the two
    arguments of the format string "Invalid adxl345 id (got %x vs %x)";
    [gcmd_error] carries the message. *)
Inductive exn : Type :=
| IndexError
| KeyError
| ZeroDivisionError
| OverflowError
| command_error (got expected : Z)
| gcmd_error (msg : string).

Inductive result (A : Type) : Type :=
| Ok (a : A)
| Raise (e : exn).
Arguments Ok {A} a.
Arguments Raise {A} e.

Definition rbind {A B} (r : result A) (k : A -> result B) : result B :=
  match r with
  | Ok a => k a
  | Raise e => Raise e
  end.

Definition len {A} (l : list A) : Z := Z.of_nat (List.length l).

(** [range(n)] *)
Definition range (n : Z) : list Z := map Z.of_nat (seq 0 (Z.to_nat n)).

(** [l[i]], negative indices counting from the end. *)
Definition getitem {A} (l : list A) (i : Z) : result A :=
  let k := if i <? 0 then i + len l else i in
  if k <? 0 then Raise IndexError
  else match nth_error l (Z.to_nat k) with
       | Some x => Ok x
       | None => Raise IndexError
       end.

(** [d[k]] for a dict written as an association list. *)
Fixpoint lookup {V} (d : list (Z * V)) (k : Z) : result V :=
  match d with
  | [] => Raise KeyError
  | (k', v) :: d' => if k =? k' then Ok v else lookup d' k
  end.

(** [k in d] *)
Definition contains {V} (d : list (Z * V)) (k : Z) : bool :=
  existsb (fun kv => k =? fst kv) d.

(** The integer of a byte of a [bytes] or [bytearray] object. *)
Definition byte_int (b : byte) : Z := Z.of_N (Byte.to_N b).

Definition bytearray (data : list byte) : list Z := map byte_int data.

(** [float(n)]: the nearest binary64, ties to even. *)
Definition Z2F (z : Z) : float :=
  SF2Prim (binary_normalize prec emax z 0 false).

(** Above this magnitude the nearest binary64 would be infinite and the
    conversion raises [OverflowError]. *)
Definition FLOAT_INT_LIMIT : Z := 2 ^ 1024 - 2 ^ 970.

Definition float_of_int (z : Z) : result float :=
  if Z.abs z <? FLOAT_INT_LIMIT then Ok (Z2F z) else Raise OverflowError.

(** [n * x] and [x / n] with [n] an int and [x] a float: the int is
    converted first; a zero divisor raises.  [float(n) == 0.0] exactly
    when [n == 0], so the test is made on the integer. *)
Definition int_mul_float (n : Z) (x : float) : result float :=
  rbind (float_of_int n) (fun f => Ok (f * x)%float).

Definition float_div_int (x : float) (n : Z) : result float :=
  rbind (float_of_int n) (fun f =>
    if n =? 0 then Raise ZeroDivisionError else Ok (x / f)%float).

(** Truth value of a float: [x != 0.0]. *)
Definition float_truthy (x : float) : bool := negb (PrimFloat.eqb x 0).

Fixpoint mapM {A B} (f : A -> result B) (l : list A) : result (list B) :=
  match l with
  | [] => Ok []
  | a :: l' =>
      rbind (f a) (fun b => rbind (mapM f l') (fun bs => Ok (b :: bs)))
  end.

End Py.
Export Py.

Notation "x <~ r ;; k" := (rbind r (fun x => k))
  (at level 61, r at next level, right associativity).

(** ** Module constants *)

Definition QUERY_RATES : list (Z * Z) :=
  [ (25, 0x8); (50, 0x9); (100, 0xa); (200, 0xb); (400, 0xc);
    (800, 0xd); (1600, 0xe); (3200, 0xf) ].

(** 4mg/LSB * Earth gravity in mm/s**2 *)
Definition SCALE : float := (0.004 * 9.80665 * 1000)%float.

Definition REG_DEVID : Z := 0x00.
Definition REG_BW_RATE : Z := 0x2C.
Definition REG_DATA_FORMAT : Z := 0x31.
Definition REG_FIFO_CTL : Z := 0x38.
Definition REG_MOD_READ : Z := 0x80.
Definition REG_MOD_MULTI : Z := 0x40.

(** ** The object and its surroundings *)

(** The measurement fields set up by [__init__]; [samples] holds the
    [(sequence, data)] tuples. *)
Record ADXL345 : Type := mkADXL345 {
  query_rate : Z;
  last_tx_time : float;
  samples : list (Z * list byte);
  last_sequence : Z;
  samples_start1 : float;
  samples_start2 : float
}.

(** The object as [__init__] leaves it. *)
Definition init : ADXL345 :=
  {| query_rate := 0; last_tx_time := 0; samples := []; last_sequence := 0;
     samples_start1 := 0; samples_start2 := 0 |}.

(** The [params] of an "adxl345_start" response. *)
Record StartParams : Type := {
  start1_time : Z;
  start2_time : Z
}.

(** The [params] of an "adxl345_data" response. *)
Record DataParams : Type := {
  data_sequence : Z;
  data : list byte
}.

(** The [params] of the "adxl345_end" response to the stop query. *)
Record EndParams : Type := {
  end1_time : Z;
  end2_time : Z;
  limit_count : Z;
  end_sequence : Z
}.

(** What the collaborators answer: the MCU's clock conversions, the bytes
    of the SPI transfer that reads the device id, the toolhead's last move
    time and the answer to the stop query. *)
Record Env : Type := {
  oid : Z;
  print_time_to_clock : float -> Z;
  seconds_to_clock : float -> Z;
  clock32_to_clock64 : Z -> Z;
  clock_to_print_time : Z -> float;
  spi_response : list byte;
  get_last_move_time : float;
  query_end_response : EndParams
}.

(** One line of the CSV report of [do_end], before formatting. *)
Inductive line : Type :=
| LStartEnd (start1 start2 end1 end2 : float)
| LSummary (limit end_seq : Z) (time_per_sample : float)
| LColumns
| LRow (time x y z : float)
| LCount (total actual drops : Z).

(** What the object does to the outside. *)
Inductive event : Type :=
| SpiTransfer (bytes : list Z)
| SpiSend (bytes : list Z) (minclock : Z)
| QueryAdxl345 (args : list Z) (reqclock : Z)
| QueryAdxl345End (args : list Z) (minclock : Z)
| FileOpen
| FileWrite (l : line)
| FileClose
| RespondInfo (msg : string).

(** ** The monad of methods: state of [self], exceptions, emitted events *)

Definition M (A : Type) : Type := ADXL345 -> result A * ADXL345 * list event.

Definition ret {A} (a : A) : M A := fun s => (Ok a, s, []).

Definition raise {A} (e : exn) : M A := fun s => (Raise e, s, []).

Definition bind {A B} (m : M A) (k : A -> M B) : M B :=
  fun s =>
    let '(r, s1, t1) := m s in
    match r with
    | Ok a => let '(r2, s2, t2) := k a s1 in (r2, s2, t1 ++ t2)
    | Raise e => (Raise e, s1, t1)
    end.

Notation "x <- m ;; k" := (bind m (fun x => k))
  (at level 61, m at next level, right associativity).
Notation "m ;;; k" := (bind m (fun _ => k))
  (at level 61, right associativity).

Definition lift {A} (r : result A) : M A := fun s => (r, s, []).

Definition gets {A} (f : ADXL345 -> A) : M A := fun s => (Ok (f s), s, []).

Definition emit (e : event) : M unit := fun s => (Ok tt, s, [e]).

Definition set_query_rate (v : Z) : M unit := fun s =>
  (Ok tt, mkADXL345 v (last_tx_time s) (samples s) (last_sequence s)
            (samples_start1 s) (samples_start2 s), []).
Definition set_last_tx_time (v : float) : M unit := fun s =>
  (Ok tt, mkADXL345 (query_rate s) v (samples s) (last_sequence s)
            (samples_start1 s) (samples_start2 s), []).
Definition set_samples (v : list (Z * list byte)) : M unit := fun s =>
  (Ok tt, mkADXL345 (query_rate s) (last_tx_time s) v (last_sequence s)
            (samples_start1 s) (samples_start2 s), []).
Definition set_last_sequence (v : Z) : M unit := fun s =>
  (Ok tt, mkADXL345 (query_rate s) (last_tx_time s) (samples s) v
            (samples_start1 s) (samples_start2 s), []).
Definition set_samples_start1 (v : float) : M unit := fun s =>
  (Ok tt, mkADXL345 (query_rate s) (last_tx_time s) (samples s)
            (last_sequence s) v (samples_start2 s), []).
Definition set_samples_start2 (v : float) : M unit := fun s =>
  (Ok tt, mkADXL345 (query_rate s) (last_tx_time s) (samples s)
            (last_sequence s) (samples_start1 s) v, []).

(** A [for] loop over [l] that carries the local variables [acc]. *)
Fixpoint for_each {A S} (l : list A) (body : A -> S -> M S) (acc : S) : M S :=
  match l with
  | [] => ret acc
  | a :: l' => acc' <- body a acc ;; for_each l' body acc'
  end.

(** Outcome, final state and trace of a method run from [s]. *)
Definition outcome {A} (m : M A) (s : ADXL345) : result A := fst (fst (m s)).
Definition final {A} (m : M A) (s : ADXL345) : ADXL345 := snd (fst (m s)).
Definition emitted {A} (m : M A) (s : ADXL345) : list event := snd (m s).

(** ** The methods *)

Definition _clock_to_print_time (env : Env) (clock : Z) : float :=
  clock_to_print_time env (clock32_to_clock64 env clock).

Definition _handle_adxl345_start (env : Env) (params : StartParams) : M unit :=
  set_samples_start1 (_clock_to_print_time env (start1_time params)) ;;;
  set_samples_start2 (_clock_to_print_time env (start2_time params)).

Definition _handle_adxl345_data (params : DataParams) : M unit :=
  last_sequence <- gets last_sequence ;;
  let sequence :=
    Z.lor (Z.land last_sequence (Z.lnot 0xffff)) (data_sequence params) in
  let sequence :=
    if sequence <? last_sequence then sequence + 0x10000 else sequence in
  set_last_sequence sequence ;;;
  samples <- gets samples ;;
  if len samples >=? 200000 then
    (* Avoid filling up memory with too many samples *)
    ret tt
  else
    set_samples (samples ++ [(sequence, data params)]).

Definition _convert_sequence (sequence : Z) : M Z :=
  last <- gets last_sequence ;;
  let sequence := Z.lor (Z.land last (Z.lnot 0xffff)) sequence in
  last <- gets last_sequence ;;
  let sequence := if sequence <? last then sequence + 0x10000 else sequence in
  ret sequence.

Definition do_start (env : Env) (rate : Z) : M unit :=
  (* Verify chip connectivity *)
  emit (SpiTransfer [Z.lor REG_DEVID REG_MOD_READ; 0x00]) ;;;
  let response := bytearray (spi_response env) in
  devid <- lift (getitem response 1) ;;
  if negb (devid =? 0xe5) then raise (command_error devid 0xe5) else
  (* Setup chip in requested query rate *)
  last_tx <- gets last_tx_time ;;
  let clock :=
    if float_truthy last_tx then print_time_to_clock env last_tx else 0 in
  emit (SpiSend [REG_DATA_FORMAT; 0x0B] clock) ;;;
  emit (SpiSend [REG_FIFO_CTL; 0x80] 0) ;;;
  code <- lift (lookup QUERY_RATES rate) ;;
  emit (SpiSend [REG_BW_RATE; code] 0) ;;;
  (* Setup samples *)
  let print_time := get_last_move_time env in
  set_samples [] ;;;
  set_last_sequence 0 ;;;
  set_samples_start1 print_time ;;;
  set_samples_start2 print_time ;;;
  (* Start bulk reading *)
  let reqclock := print_time_to_clock env print_time in
  period <- lift (float_div_int 4 rate) ;;
  let rest_ticks := seconds_to_clock env period in
  set_last_tx_time print_time ;;;
  set_query_rate rate ;;;
  emit (QueryAdxl345 [oid env; reqclock; rest_ticks] reqclock).

(** The 16-bit value of axis field [j] of a batch:
    [(d[j*2] | (d[j*2+1] << 8)) - ((d[j*2+1] & 0x80) << 9)]. *)
Definition axis_raw (d : list Z) (j : Z) : result Z :=
  lo <~ getitem d (j * 2) ;;
  hi <~ getitem d (j * 2 + 1) ;;
  hi' <~ getitem d (j * 2 + 1) ;;
  Ok (Z.lor lo (Z.shiftl hi 8) - Z.shiftl (Z.land hi' 0x80) 9).

(** The list comprehension [sdata] of [do_end]. *)
Definition sdata_of (d : list Z) (count : Z) : result (list float) :=
  mapM (fun j => raw <~ axis_raw d j ;; int_mul_float raw SCALE)
       (range (count / 2)).

(** The body of the outer loop of [do_end] for one stored batch; the
    accumulator is [actual_count]. *)
Definition write_batch (start2_time seq_to_time sample_to_time : float)
    (batch : Z * list byte) (actual_count : Z) : M Z :=
  let seq := fst batch in
  let data := snd batch in
  let d := bytearray data in
  let count := len data in
  sdata <- lift (sdata_of d count) ;;
  off <- lift (int_mul_float seq seq_to_time) ;;
  let seq_time := (start2_time + off)%float in
  for_each (range (count / 6))
    (fun j actual_count =>
       dt <- lift (int_mul_float j sample_to_time) ;;
       x <- lift (getitem sdata (j * 3)) ;;
       y <- lift (getitem sdata (j * 3 + 1)) ;;
       z <- lift (getitem sdata (j * 3 + 2)) ;;
       emit (FileWrite (LRow (seq_time + dt) x y z)) ;;;
       ret (actual_count + 1))
    actual_count.

Definition do_end (env : Env) : M unit :=
  query_rate <- gets query_rate ;;
  if query_rate =? 0 then ret tt else
  (* Halt bulk reading *)
  let print_time := get_last_move_time env in
  let clock := print_time_to_clock env print_time in
  emit (QueryAdxl345End [oid env; 0; 0] clock) ;;;
  let params := query_end_response env in
  set_last_tx_time print_time ;;;
  set_query_rate 0 ;;;
  samples <- gets samples ;;
  set_samples [] ;;;
  (* Report results *)
  let end1_time := _clock_to_print_time env (end1_time params) in
  let end2_time := _clock_to_print_time env (end2_time params) in
  end_sequence <- _convert_sequence (end_sequence params) ;;
  last <- lift (getitem samples (-1)) ;;
  let total_count := (end_sequence - 1) * 8 + len (snd last) / 6 in
  start2_time <- gets samples_start2 ;;
  let total_time := (end2_time - start2_time)%float in
  sample_to_time <- lift (float_div_int total_time total_count) ;;
  let seq_to_time := (sample_to_time * 8)%float in
  emit FileOpen ;;;
  start1_time <- gets samples_start1 ;;
  emit (FileWrite (LStartEnd start1_time start2_time end1_time end2_time)) ;;;
  emit (FileWrite (LSummary (limit_count params) end_sequence sample_to_time)) ;;;
  emit (FileWrite LColumns) ;;;
  actual_count <-
    for_each samples (write_batch start2_time seq_to_time sample_to_time) 0 ;;
  emit (FileWrite (LCount total_count actual_count (total_count - actual_count))) ;;;
  emit FileClose.

(** [gcmd.get_int("RATE", 0)] of a command whose RATE parameter, when
    given, parses as [r]. *)
Definition get_int_RATE (gcmd : option Z) : Z :=
  match gcmd with
  | Some r => r
  | None => 0
  end.

Definition cmd_ACCELEROMETER_MEASURE (env : Env) (gcmd : option Z) : M unit :=
  let rate := get_int_RATE gcmd in
  if rate =? 0 then
    do_end env ;;;
    emit (RespondInfo "adxl345 measurements stopped"%string)
  else
    running <- gets query_rate ;;
    if negb (running =? 0) then raise (gcmd_error "adxl345 already running"%string)
    else if negb (contains QUERY_RATES rate) then
      raise (gcmd_error "Not a valid adxl345 query rate"%string)
    else do_start env rate.

(** Ingestion of a run of "adxl345_data" responses, in arrival order. *)
Definition ingest (ps : list DataParams) : M unit :=
  for_each ps (fun p _ => _handle_adxl345_data p) tt.

(** The extended sequence numbers the ingestion handler computes for a run
    of responses: the value of [self.last_sequence] after each call. *)
Fixpoint observed (ps : list DataParams) (s : ADXL345) : list Z :=
  match ps with
  | [] => []
  | p :: ps' =>
      let s' := final (_handle_adxl345_data p) s in
      last_sequence s' :: observed ps' s'
  end.

(** ** The specification's wording, for comparison with the methods *)

(** Sequence Reconstructor: [candidate = (last & !0xFFFF) | raw16], one
    wrap added when the candidate is below the last value. *)
Definition candidate (last raw16 : Z) : Z :=
  Z.lor (Z.land last (Z.lnot 0xFFFF)) raw16.

Definition extend (last raw16 : Z) : Z :=
  if candidate last raw16 <? last then candidate last raw16 + 0x10000
  else candidate last raw16.

(** Counts of the device of which each is less than one wrap above the one
    before, [last] being the first's predecessor. *)
Fixpoint one_wrap_apart (last : Z) (ts : list Z) : Prop :=
  match ts with
  | [] => True
  | t :: ts' => last <= t < last + 65536 /\ one_wrap_apart t ts'
  end.

(** The batches a run of responses would store were none dropped. *)
Fixpoint batches (last : Z) (ps : list DataParams) : list (Z * list byte) :=
  match ps with
  | [] => []
  | p :: ps' =>
      let e := extend last (data_sequence p) in
      (e, data p) :: batches e ps'
  end.

(** *** The sample decoder *)

(** Byte [i] of a payload. *)
Definition byte_at (payload : list byte) (i : Z) : Z :=
  byte_int (nth (Z.to_nat i) payload x00).

(** The little-endian 16-bit word of a low and a high byte. *)
Definition word16 (lo hi : Z) : Z := lo + 256 * hi.

(** Two's complement reading of a 16-bit word: bit 15 is the sign. *)
Definition signed16 (u : Z) : Z := if u <? 32768 then u else u - 65536.

(** The specification's reading: the low thirteen bits of the word, with
    bit 12 as the sign. *)
Definition sign_extend13 (u : Z) : Z :=
  let v := u mod 8192 in
  if v <? 4096 then v else v - 8192.

(** Axis field [k] of a payload, as [do_end] decodes it. *)
Definition axis_value (payload : list byte) (k : Z) : Z :=
  signed16 (word16 (byte_at payload (k * 2)) (byte_at payload (k * 2 + 1))).

(** The physical values of a payload: one per 16-bit field. *)
Definition physical_at (payload : list byte) (k : Z) : float :=
  (Z2F (axis_value payload k) * SCALE)%float.

Definition physical (payload : list byte) : list float :=
  map (physical_at payload) (range (len payload / 2)).

(** *** The timing correlator *)

(** The specification's quantities. *)
Definition sample_interval (fine_start end2 : float) (total_count : Z) : float :=
  ((end2 - fine_start) / Z2F total_count)%float.

Definition batch_interval (interval : float) : float := (interval * 8)%float.

Definition timestamp (fine_start interval : float) (extended_sequence j : Z)
  : float :=
  (fine_start + Z2F extended_sequence * batch_interval interval
   + Z2F j * interval)%float.

(** Sample [j] of a stored batch, as a row of the report. *)
Definition sample_row (fine_start interval : float) (batch : Z * list byte)
    (j : Z) : line :=
  LRow (timestamp fine_start interval (fst batch) j)
       (physical_at (snd batch) (j * 3))
       (physical_at (snd batch) (j * 3 + 1))
       (physical_at (snd batch) (j * 3 + 2)).

Definition batch_rows (fine_start interval : float) (batch : Z * list byte)
  : list line :=
  map (sample_row fine_start interval batch) (range (len (snd batch) / 6)).

(** Number of 6-byte groups of a batch. *)
Definition groups (batch : Z * list byte) : Z := len (snd batch) / 6.

Definition Zsum (l : list Z) : Z := fold_right Z.add 0 l.

(** An integer that converts to a float without overflow. *)
Definition convertible (z : Z) : Prop := Z.abs z < FLOAT_INT_LIMIT.

Definition batch_convertible (batch : Z * list byte) : Prop :=
  convertible (fst batch) /\ convertible (len (snd batch)).

(** [total_count] of [do_end], from the extended end sequence and the last
    retained batch. *)
Definition total_count_of (end_seq : Z) (last_batch : Z * list byte) : Z :=
  (end_seq - 1) * 8 + groups last_batch.

(** *** The stop report *)

(** The object once [do_end] has halted the stream. *)
Definition stopped (env : Env) (s : ADXL345) : ADXL345 :=
  mkADXL345 0 (get_last_move_time env) [] (last_sequence s)
    (samples_start1 s) (samples_start2 s).

(** The stop query [do_end] sends. *)
Definition stop_query (env : Env) : event :=
  QueryAdxl345End [oid env; 0; 0]
    (print_time_to_clock env (get_last_move_time env)).

(** The extended sequence number of the stop query's answer. *)
Definition end_seq_of (env : Env) (s : ADXL345) : Z :=
  extend (last_sequence s) (end_sequence (query_end_response env)).

(** The report [do_end] writes for a buffer whose last batch is [last_batch]. *)
Definition report (env : Env) (s : ADXL345) (last_batch : Z * list byte)
  : list event :=
  let params := query_end_response env in
  let total_count := total_count_of (end_seq_of env s) last_batch in
  let fine_start := samples_start2 s in
  let end2 := _clock_to_print_time env (end2_time params) in
  let interval := sample_interval fine_start end2 total_count in
  let actual_count := Zsum (map groups (samples s)) in
  [ FileOpen;
    FileWrite (LStartEnd (samples_start1 s) fine_start
                 (_clock_to_print_time env (end1_time params)) end2);
    FileWrite (LSummary (limit_count params) (end_seq_of env s) interval);
    FileWrite LColumns ]
  ++ flat_map (fun batch => map FileWrite (batch_rows fine_start interval batch))
       (samples s)
  ++ [ FileWrite (LCount total_count actual_count (total_count - actual_count));
       FileClose ].

(** ** Properties of methods *)

Definition preserves {A} (m : M A) : Prop := forall s, final m s = s.

(** ** Example set-ups *)

(** Truncation of a float to an integer, for the bench clock below. *)
Definition F2Z (x : float) : Z :=
  match Prim2SF x with
  | S754_finite sign m e =>
      let v := if 0 <=? e then Zpos m * 2 ^ e else Zpos m / 2 ^ (- e) in
      if sign then - v else v
  | _ => 0
  end.

(** A bench set-up for examples: an MCU whose clock ticks 1000 times a
    second, an identification read answered by [response], a toolhead
    whose last move ends at [move_time] and a stop query answered by
    [answer]. *)
Definition bench (response : list byte) (move_time : float)
    (answer : EndParams) : Env :=
  {| oid := 0;
     print_time_to_clock := fun t => F2Z (t * 1000);
     seconds_to_clock := fun t => F2Z (t * 1000);
     clock32_to_clock64 := fun c => c;
     clock_to_print_time := fun c => (Z2F c / 1000)%float;
     spi_response := response;
     get_last_move_time := move_time;
     query_end_response := answer |}.

Definition no_answer : EndParams :=
  {| end1_time := 0; end2_time := 0; limit_count := 0; end_sequence := 0 |}.

(** A capture of two full batches, sequence numbers 0 and 499, started at
    10 s and stopped at 14 s with end sequence 500. *)
Definition eight_samples : list byte :=
  List.concat (repeat [x64; x00; x9c; xff; xff; x0f] 8).

Definition capture : ADXL345 :=
  mkADXL345 3200 10 [(0, eight_samples); (499, eight_samples)] 499 10 10.

Definition capture_end : EndParams :=
  {| end1_time := 13990; end2_time := 14000; limit_count := 0;
     end_sequence := 500 |}.

(** ** The object in use *)

(** What reaches the object: [__init__] registers the two response
    handlers with the MCU and the ACCELEROMETER_MEASURE command with the
    G-code dispatcher. *)
Inductive input : Type :=
| Gcode (env : Env) (gcmd : option Z)
| StartResponse (env : Env) (params : StartParams)
| DataResponse (params : DataParams).

Definition dispatch (i : input) : M unit :=
  match i with
  | Gcode env gcmd => cmd_ACCELEROMETER_MEASURE env gcmd
  | StartResponse env params => _handle_adxl345_start env params
  | DataResponse params => _handle_adxl345_data params
  end.

(** The object after a run of inputs; an exception of a command goes to
    the dispatcher and the object stays as the raise left it. *)
Definition run_inputs (inputs : list input) (s : ADXL345) : ADXL345 :=
  fold_left (fun s i => final (dispatch i) s) inputs s.

(** The "sequence" field of a data response is a 16-bit value ("%hu"). *)
Definition well_formed (i : input) : Prop :=
  match i with
  | DataResponse params => 0 <= data_sequence params < 65536
  | _ => True
  end.

(** What holds of the object between inputs. *)
Definition session_invariant (s : ADXL345) : Prop :=
  (query_rate s = 0 \/ contains QUERY_RATES (query_rate s) = true)
  /\ len (samples s) <= 200000
  /\ 0 <= last_sequence s
  /\ Forall (fun q => 0 <= q <= last_sequence s) (map fst (samples s))
  /\ StronglySorted Z.le (map fst (samples s)).



Definition is_row (e : event) : bool :=
  match e with
  | FileWrite (LRow _ _ _ _) => true
  | _ => false
  end.

(** Responses of a device that numbers its batches from [first] on, loses
    none and fills each with eight samples. *)
Fixpoint consecutive_full (first : Z) (ps : list DataParams) : Prop :=
  match ps with
  | [] => True
  | p :: ps' =>
      data_sequence p = first mod 65536
      /\ len (data p) = 48
      /\ consecutive_full (first + 1) ps'
  end.

(** ** Running the monad *)

Ltac run_monad :=
  unfold outcome, final, emitted, bind, ret, raise, lift, gets, emit,
    set_query_rate, set_last_tx_time, set_samples, set_last_sequence,
    set_samples_start1, set_samples_start2;
  cbn [fst snd app query_rate last_tx_time samples last_sequence
       samples_start1 samples_start2].

Lemma handle_data_run (p : DataParams) (s : ADXL345) :
  _handle_adxl345_data p s =
  (Ok tt,
   mkADXL345 (query_rate s) (last_tx_time s)
     (if len (samples s) >=? 200000 then samples s
      else samples s ++ [(extend (last_sequence s) (data_sequence p), data p)])
     (extend (last_sequence s) (data_sequence p))
     (samples_start1 s) (samples_start2 s),
   []).
Proof.
  unfold _handle_adxl345_data, extend, candidate. run_monad.
  destruct (len (samples s) >=? 200000); reflexivity.
Qed.

Lemma convert_sequence_run (raw : Z) (s : ADXL345) :
  _convert_sequence raw s = (Ok (extend (last_sequence s) raw), s, []).
Proof. reflexivity. Qed.

Lemma handle_data_last_sequence (p : DataParams) (s : ADXL345) :
  last_sequence (final (_handle_adxl345_data p) s)
  = extend (last_sequence s) (data_sequence p).
Proof. unfold final. rewrite handle_data_run. reflexivity. Qed.

Lemma ingest_cons (p : DataParams) (ps : list DataParams) (s : ADXL345) :
  final (ingest (p :: ps)) s = final (ingest ps) (final (_handle_adxl345_data p) s).
Proof.
  unfold ingest, final. cbn [for_each]. unfold bind.
  rewrite handle_data_run. cbn [fst snd].
  destruct (for_each ps _ tt _) as [[r s2] t2]. destruct r; reflexivity.
Qed.

Lemma ingest_nil (s : ADXL345) : final (ingest []) s = s.
Proof. reflexivity. Qed.

Lemma ingest_outcome (ps : list DataParams) (s : ADXL345) :
  outcome (ingest ps) s = Ok tt /\ emitted (ingest ps) s = [].
Proof.
  revert s. induction ps as [|p ps IH]; intros s; [split; reflexivity|].
  unfold ingest, outcome, emitted in *. cbn [for_each]. unfold bind.
  rewrite handle_data_run.
  specialize (IH (final (_handle_adxl345_data p) s)).
  unfold final in IH. rewrite handle_data_run in IH. cbn [fst snd] in IH.
  destruct (for_each ps _ tt _) as [[r s2] t2]. cbn [fst snd] in *.
  destruct IH as [-> ->]. split; reflexivity.
Qed.

(** ** Sequence reconstruction *)

(** C3: the reconstructor returns [candidate] when it is not below the last
    value and [candidate + 0x10000] otherwise, without touching the object;
    the ingestion handler computes the same value and stores it in
    [last_sequence], so that the next response is extended from it. *)
Theorem sequence_reconstructor_result (s : ADXL345) (raw16 : Z)
    (p q : DataParams) :
  let c := Z.lor (Z.land (last_sequence s) (Z.lnot 0xFFFF)) raw16 in
  outcome (_convert_sequence raw16) s
    = Ok (if c >=? last_sequence s then c else c + 0x10000)
  /\ final (_convert_sequence raw16) s = s
  /\ outcome (_handle_adxl345_data p) s = Ok tt
  /\ Ok (last_sequence (final (_handle_adxl345_data p) s))
     = outcome (_convert_sequence (data_sequence p)) s
  /\ Ok (last_sequence (final (ingest [p; q]) s))
     = outcome (_convert_sequence (data_sequence q))
         (final (_handle_adxl345_data p) s).
Proof.
  cbv zeta. rewrite ingest_cons, ingest_cons, ingest_nil.
  unfold outcome, final.
  repeat (rewrite ?convert_sequence_run, ?handle_data_run;
          cbn [fst snd last_sequence]).
  repeat split.
  unfold extend, candidate. rewrite Z.geb_leb, Z.ltb_antisym.
  destruct (_ <=? _); reflexivity.
Qed.

(** *** Arithmetic of the reconstruction *)

Lemma shiftl_low_disjoint (n x raw : Z) :
  0 <= n -> 0 <= raw < 2 ^ n -> Z.land (Z.shiftl x n) raw = 0.
Proof.
  intros Hn Hr. apply Z.bits_inj'. intros k Hk.
  rewrite Z.land_spec, Z.bits_0.
  destruct (Z.lt_ge_cases k n) as [Hlt|Hge].
  - rewrite Z.shiftl_spec_low by assumption. reflexivity.
  - replace raw with (raw mod 2 ^ n) by (apply Z.mod_small; lia).
    rewrite Z.mod_pow2_bits_high by lia. apply andb_false_r.
Qed.

Lemma high_low_disjoint (x raw : Z) :
  0 <= raw < 65536 -> Z.land (Z.shiftl x 16) raw = 0.
Proof.
  intros Hr. apply shiftl_low_disjoint; [lia|].
  change (2 ^ 16) with 65536. assumption.
Qed.

Lemma candidate_split (last raw : Z) :
  0 <= raw < 65536 -> candidate last raw = 65536 * (last / 65536) + raw.
Proof.
  intros Hr. unfold candidate.
  rewrite <- Z.ldiff_land.
  change 0xFFFF with (Z.ones 16).
  rewrite Z.ldiff_ones_r by lia.
  rewrite <- Z.lxor_lor by (apply high_low_disjoint; assumption).
  rewrite <- Z.add_nocarry_lxor by (apply high_low_disjoint; assumption).
  rewrite Z.shiftl_mul_pow2, Z.shiftr_div_pow2 by lia.
  change (2 ^ 16) with 65536. lia.
Qed.

(** The reconstructed value never falls below the last one and lies less
    than one wrap above it. *)
Lemma extend_bounds (last raw : Z) :
  0 <= raw < 65536 -> last <= extend last raw < last + 65536.
Proof.
  intros Hr. unfold extend. rewrite candidate_split by assumption.
  pose proof (Z.div_mod last 65536 ltac:(lia)) as Hdm.
  pose proof (Z.mod_pos_bound last 65536 ltac:(lia)) as Hm.
  destruct (Z.ltb_spec (65536 * (last / 65536) + raw) last); lia.
Qed.

(** The low sixteen bits of the reconstructed value are the raw value. *)
Lemma extend_low_bits (last raw : Z) :
  0 <= raw < 65536 -> extend last raw mod 65536 = raw.
Proof.
  intros Hr. unfold extend. rewrite candidate_split by assumption.
  destruct (_ <? _).
  - replace (65536 * (last / 65536) + raw + 0x10000)
      with (raw + (last / 65536 + 1) * 65536) by lia.
    rewrite Z.mod_add by lia. apply Z.mod_small; lia.
  - replace (65536 * (last / 65536) + raw)
      with (raw + (last / 65536) * 65536) by lia.
    rewrite Z.mod_add by lia. apply Z.mod_small; lia.
Qed.

(** When the device's true count [t] has advanced by less than one wrap
    since the last observation, the reconstruction recovers it. *)
Lemma extend_exact (last t : Z) :
  last <= t < last + 65536 -> extend last (t mod 65536) = t.
Proof.
  intros Ht.
  pose proof (Z.mod_pos_bound t 65536 ltac:(lia)) as Hm.
  pose proof (extend_bounds last (t mod 65536) Hm) as Hb.
  pose proof (extend_low_bits last (t mod 65536) Hm) as Hl.
  remember (extend last (t mod 65536)) as e.
  pose proof (Z.div_mod e 65536 ltac:(lia)) as He.
  pose proof (Z.div_mod t 65536 ltac:(lia)) as Ht'.
  rewrite Hl in He. nia.
Qed.

Lemma observed_sorted (ps : list DataParams) (s : ADXL345) :
  Forall (fun p => 0 <= data_sequence p < 65536) ps ->
  Sorted Z.le (last_sequence s :: observed ps s).
Proof.
  revert s. induction ps as [|p ps IH]; intros s Hps.
  - repeat constructor.
  - inversion Hps as [|? ? Hp Hps']; subst.
    cbn [observed]. constructor.
    + apply IH. assumption.
    + constructor. rewrite handle_data_last_sequence.
      apply extend_bounds. assumption.
Qed.

(** C4: fed raw 16-bit values, the handler's successive extended sequence
    numbers never decrease, from the value the context held before the
    first response onwards. *)
Theorem extended_sequence_non_decreasing (ps : list DataParams) (s : ADXL345) :
  Forall (fun p => 0 <= data_sequence p < 65536) ps ->
  StronglySorted Z.le (last_sequence s :: observed ps s).
Proof.
  intros Hps. apply Sorted_StronglySorted.
  - intros x y z. apply Z.le_trans.
  - apply observed_sorted. assumption.
Qed.

Lemma extended_sequence_non_decreasing_witness :
  StronglySorted Z.le
    (last_sequence init
     :: observed [ {| data_sequence := 65534; data := [] |};
                   {| data_sequence := 65535; data := [] |};
                   {| data_sequence := 0; data := [] |};
                   {| data_sequence := 1; data := [] |} ] init).
Proof.
  apply extended_sequence_non_decreasing.
  repeat constructor; cbn; lia.
Defined.

(** With at most one wrap between consecutive observations the handler
    recovers the device's own count. *)
Lemma observed_exact (ts : list Z) (s : ADXL345) :
  one_wrap_apart (last_sequence s) ts ->
  observed (map (fun t => {| data_sequence := t mod 65536; data := [] |}) ts) s
  = ts.
Proof.
  revert s. induction ts as [|t ts IH]; intros s Hts; [reflexivity|].
  destruct Hts as [Ht Hts]. cbn [map observed].
  rewrite handle_data_last_sequence. cbn [data_sequence].
  rewrite extend_exact by assumption. f_equal.
  apply IH. rewrite handle_data_last_sequence. cbn [data_sequence].
  rewrite extend_exact by assumption. assumption.
Qed.

(** *** Runs of responses *)

Lemma observed_batches (ps : list DataParams) (s : ADXL345) :
  observed ps s = map fst (batches (last_sequence s) ps).
Proof.
  revert s. induction ps as [|p ps IH]; intros s; [reflexivity|].
  cbn [observed batches map fst].
  rewrite IH, handle_data_last_sequence. reflexivity.
Qed.

Lemma ingest_last_sequence (ps : list DataParams) (s : ADXL345) :
  last_sequence (final (ingest ps) s)
  = fold_left (fun l p => extend l (data_sequence p)) ps (last_sequence s).
Proof.
  revert s. induction ps as [|p ps IH]; intros s; [reflexivity|].
  rewrite ingest_cons, IH, handle_data_last_sequence. reflexivity.
Qed.

Lemma len_app_one {A} (l : list A) (a : A) : len (l ++ [a]) = len l + 1.
Proof. unfold len. rewrite length_app. cbn [List.length]. lia. Qed.

Lemma ingest_samples (ps : list DataParams) (s : ADXL345) :
  samples (final (ingest ps) s)
  = samples s
    ++ firstn (Z.to_nat (200000 - len (samples s)))
         (batches (last_sequence s) ps).
Proof.
  revert s. induction ps as [|p ps IH]; intros s.
  - rewrite ingest_nil. cbn [batches]. rewrite firstn_nil, app_nil_r.
    reflexivity.
  - rewrite ingest_cons, IH. unfold final. rewrite handle_data_run.
    cbn [fst snd samples last_sequence batches].
    rewrite Z.geb_leb. destruct (Z.leb_spec 200000 (len (samples s))) as [Hfull|Hroom].
    + replace (Z.to_nat (200000 - len (samples s))) with 0%nat by lia.
      reflexivity.
    + rewrite len_app_one.
      replace (Z.to_nat (200000 - len (samples s)))
        with (S (Z.to_nat (200000 - (len (samples s) + 1)))) by lia.
      rewrite firstn_cons, <- app_assoc. reflexivity.
Qed.

Lemma firstn_batches (n : nat) (last : Z) (ps : list DataParams) :
  firstn n (batches last ps) = batches last (firstn n ps).
Proof.
  revert last ps. induction n as [|n IH]; intros last [|p ps];
    try reflexivity.
  cbn [batches firstn]. rewrite IH. reflexivity.
Qed.

Lemma length_batches (last : Z) (ps : list DataParams) :
  List.length (batches last ps) = List.length ps.
Proof.
  revert last. induction ps as [|p ps IH]; intros last; [reflexivity|].
  cbn [batches List.length]. rewrite IH. reflexivity.
Qed.

(** ** The ingest buffer *)

(** C6: a push with fewer than 200000 batches retained appends the new
    batch after the stored ones, which stay as they are; a push with
    200000 retained returns normally and retains nothing new; so 200001
    pushes into an empty buffer leave the first 200000 batches, in arrival
    order. *)
Theorem ingest_buffer_cap (s : ADXL345) (p : DataParams)
    (ps : list DataParams) :
  samples s = [] ->
  len ps = 200001 ->
  (forall s' : ADXL345,
      outcome (_handle_adxl345_data p) s' = Ok tt
      /\ emitted (_handle_adxl345_data p) s' = []
      /\ samples (final (_handle_adxl345_data p) s')
         = if len (samples s') <? 200000
           then samples s'
                ++ [(extend (last_sequence s') (data_sequence p), data p)]
           else samples s')
  /\ outcome (ingest ps) s = Ok tt
  /\ samples (final (ingest ps) s)
     = batches (last_sequence s) (firstn (Z.to_nat 200000) ps)
  /\ samples (final (ingest ps) s)
     = samples (final (ingest (firstn (Z.to_nat 200000) ps)) s)
  /\ len (samples (final (ingest ps) s)) = 200000.
Proof.
  intros Hempty Hlen.
  assert (Hkeep : samples (final (ingest ps) s)
                  = batches (last_sequence s) (firstn (Z.to_nat 200000) ps)).
  { rewrite ingest_samples, Hempty. change (len []) with 0.
    rewrite Z.sub_0_r, firstn_batches. reflexivity. }
  repeat split.
  - unfold outcome. rewrite handle_data_run. reflexivity.
  - unfold emitted. rewrite handle_data_run. reflexivity.
  - unfold final. rewrite handle_data_run. cbn [fst snd samples].
    rewrite Z.geb_leb, Z.ltb_antisym.
    destruct (200000 <=? len (samples s')); reflexivity.
  - apply ingest_outcome.
  - exact Hkeep.
  - rewrite Hkeep, ingest_samples, Hempty. change (len []) with 0.
    rewrite Z.sub_0_r, firstn_batches, firstn_firstn, Nat.min_id.
    reflexivity.
  - rewrite Hkeep. unfold len in *.
    rewrite length_batches, length_firstn. lia.
Qed.

Lemma ingest_buffer_cap_witness :
  let p := {| data_sequence := 7; data := [] |} in
  let ps := repeat p (Z.to_nat 200001) in
  samples (final (ingest ps) init)
  = batches 0 (firstn (Z.to_nat 200000) ps)
  /\ len (samples (final (ingest ps) init)) = 200000.
Proof.
  intros p ps.
  assert (Hlen : len ps = 200001).
  { unfold len, ps. rewrite repeat_length. lia. }
  destruct (ingest_buffer_cap init p ps eq_refl Hlen)
    as (_ & _ & Hkeep & _ & Hcount).
  split; [exact Hkeep | exact Hcount].
Defined.

(** C9: a response that arrives with 200000 batches retained is discarded
    and still advances [last_sequence] to its extended sequence number;
    the extended sequence numbers of that and later responses, and the
    extension of the stop query's sequence number, are the ones an object
    with the same context and room in its buffer computes. *)
Theorem sequence_context_survives_drops (s : ADXL345) (p : DataParams)
    (ps : list DataParams) (raw16 : Z) :
  len (samples s) >= 200000 ->
  samples (final (_handle_adxl345_data p) s) = samples s
  /\ last_sequence (final (_handle_adxl345_data p) s)
     = extend (last_sequence s) (data_sequence p)
  /\ forall s0 : ADXL345,
       last_sequence s0 = last_sequence s ->
       observed (p :: ps) s = observed (p :: ps) s0
       /\ last_sequence (final (ingest (p :: ps)) s)
          = last_sequence (final (ingest (p :: ps)) s0)
       /\ outcome (_convert_sequence raw16) (final (ingest (p :: ps)) s)
          = outcome (_convert_sequence raw16) (final (ingest (p :: ps)) s0).
Proof.
  intros Hfull. split; [|split].
  - unfold final. rewrite handle_data_run. cbn [fst snd samples].
    rewrite Z.geb_leb. destruct (Z.leb_spec 200000 (len (samples s))); [reflexivity|lia].
  - apply handle_data_last_sequence.
  - intros s0 Hctx.
    assert (Hlast : last_sequence (final (ingest (p :: ps)) s)
                    = last_sequence (final (ingest (p :: ps)) s0)).
    { rewrite !ingest_last_sequence, Hctx. reflexivity. }
    split; [|split].
    + rewrite !observed_batches, Hctx. reflexivity.
    + exact Hlast.
    + unfold outcome. rewrite !convert_sequence_run. cbn [fst].
      rewrite Hlast. reflexivity.
Qed.

Lemma sequence_context_survives_drops_witness :
  let full :=
    mkADXL345 100 0 (repeat (0, []) (Z.to_nat 200000)) 65530 0 0 in
  let p := {| data_sequence := 65535; data := [] |} in
  let q := {| data_sequence := 3; data := [] |} in
  samples (final (_handle_adxl345_data p) full) = samples full
  /\ last_sequence (final (_handle_adxl345_data p) full) = 65535
  /\ observed [p; q] full = [65535; 65539].
Proof.
  intros full p q.
  assert (Hfull : len (samples full) >= 200000).
  { unfold len, full. cbn [samples]. rewrite repeat_length. lia. }
  destruct (sequence_context_survives_drops full p [q] 0 Hfull)
    as (Hdrop & Hseq & Hsame).
  split; [exact Hdrop|]. split; [rewrite Hseq; reflexivity|].
  destruct (Hsame (mkADXL345 100 0 [] 65530 0 0) eq_refl) as (Hobs & _).
  rewrite Hobs. vm_compute. reflexivity.
Defined.

(** ** Methods that leave the object as it is *)

Lemma preserves_ret {A} (a : A) : preserves (ret a).
Proof. intros s. reflexivity. Qed.

Lemma preserves_raise {A} (e : exn) : preserves (@raise A e).
Proof. intros s. reflexivity. Qed.

Lemma preserves_lift {A} (r : result A) : preserves (lift r).
Proof. intros s. reflexivity. Qed.

Lemma preserves_gets {A} (f : ADXL345 -> A) : preserves (gets f).
Proof. intros s. reflexivity. Qed.

Lemma preserves_emit (e : event) : preserves (emit e).
Proof. intros s. reflexivity. Qed.

Lemma final_bind {A B} (m : M A) (k : A -> M B) (s : ADXL345) :
  final (bind m k) s
  = match outcome m s with
    | Ok a => final (k a) (final m s)
    | Raise _ => final m s
    end.
Proof.
  unfold final, outcome, bind.
  destruct (m s) as [[[a|e] s1] t1]; cbn [fst snd]; [|reflexivity].
  destruct (k a s1) as [[r2 s2] t2]. reflexivity.
Qed.

Lemma preserves_bind {A B} (m : M A) (k : A -> M B) :
  preserves m -> (forall a, preserves (k a)) -> preserves (bind m k).
Proof.
  intros Hm Hk s. rewrite final_bind, Hm.
  destruct (outcome m s); [apply Hk | reflexivity].
Qed.

Lemma preserves_for_each {A S} (l : list A) (body : A -> S -> M S) (acc : S) :
  (forall a x, preserves (body a x)) -> preserves (for_each l body acc).
Proof.
  intros Hbody. revert acc.
  induction l as [|a l IH]; intros acc; cbn [for_each].
  - apply preserves_ret.
  - apply preserves_bind; [apply Hbody | intros acc'; apply IH].
Qed.

Create HintDb preserves.
#[local] Hint Resolve preserves_ret preserves_raise preserves_lift
  preserves_gets preserves_emit : preserves.

Ltac preserve :=
  repeat first
    [ apply preserves_for_each; intros
    | apply preserves_bind; [|intros]
    | solve [auto with preserves] ].

Lemma preserves_convert_sequence (raw : Z) : preserves (_convert_sequence raw).
Proof. unfold _convert_sequence. preserve. Qed.

Lemma preserves_write_batch (a b c : float) (batch : Z * list byte) (n : Z) :
  preserves (write_batch a b c batch n).
Proof. unfold write_batch. preserve. Qed.

(** The object after [do_end], whatever the outcome. *)
Lemma do_end_final (env : Env) (s : ADXL345) :
  final (do_end env) s
  = if query_rate s =? 0 then s
    else mkADXL345 0 (get_last_move_time env) [] (last_sequence s)
           (samples_start1 s) (samples_start2 s).
Proof.
  unfold do_end. rewrite final_bind. cbn [outcome final gets fst snd].
  destruct (query_rate s =? 0); [reflexivity|].
  do 5 (rewrite final_bind;
        cbn [outcome final gets emit set_last_tx_time set_query_rate
             set_samples fst snd query_rate last_tx_time samples
             last_sequence samples_start1 samples_start2]).
  match goal with |- final ?m ?s' = _ => assert (H : preserves m) end.
  { preserve. }
  apply H.
Qed.

Ltac mstep :=
  cbv beta iota zeta
    delta [bind ret raise lift gets emit set_query_rate set_last_tx_time
           set_samples set_last_sequence set_samples_start1
           set_samples_start2];
  cbn [fst snd app query_rate last_tx_time samples last_sequence
       samples_start1 samples_start2].

(** ** The acquisition controller *)

Lemma do_end_idle (env : Env) (s : ADXL345) :
  query_rate s = 0 -> do_end env s = (Ok tt, s, []).
Proof. intros Hidle. unfold do_end. mstep. rewrite Hidle. reflexivity. Qed.

Lemma contains_QUERY_RATES (rate : Z) :
  contains QUERY_RATES rate = true ->
  In rate [25; 50; 100; 200; 400; 800; 1600; 3200].
Proof.
  unfold contains, QUERY_RATES. cbn [existsb fst In].
  repeat match goal with
         | |- context [rate =? ?k] =>
             destruct (Z.eqb_spec rate k) as [->|_]; [intros _; tauto|]
         end.
  discriminate.
Qed.

Lemma valid_rate_lookup (rate : Z) :
  contains QUERY_RATES rate = true ->
  exists code, lookup QUERY_RATES rate = Ok code.
Proof.
  intros Hin. apply contains_QUERY_RATES in Hin. cbn [In] in Hin.
  repeat (destruct Hin as [<-|Hin]; [eexists; reflexivity|]).
  contradiction.
Qed.

Lemma valid_rate_period (rate : Z) :
  contains QUERY_RATES rate = true ->
  float_div_int 4 rate = Ok (4 / Z2F rate)%float.
Proof.
  intros Hin. apply contains_QUERY_RATES in Hin. cbn [In] in Hin.
  repeat (destruct Hin as [<-|Hin]; [reflexivity|]).
  contradiction.
Qed.

(** [do_start] once the identification read has answered with [devid]. *)
Lemma do_start_run (env : Env) (rate devid : Z) (s : ADXL345) :
  getitem (bytearray (spi_response env)) 1 = Ok devid ->
  do_start env rate s
  = let clock :=
      if float_truthy (last_tx_time s)
      then print_time_to_clock env (last_tx_time s) else 0 in
    let print_time := get_last_move_time env in
    let reqclock := print_time_to_clock env print_time in
    let identify := SpiTransfer [0x80; 0x00] in
    let format := [SpiSend [0x31; 0x0B] clock; SpiSend [0x38; 0x80] 0] in
    if devid =? 0xe5 then
      match lookup QUERY_RATES rate with
      | Raise e => (Raise e, s, identify :: format)
      | Ok code =>
          match float_div_int 4 rate with
          | Raise e =>
              (Raise e,
               mkADXL345 (query_rate s) (last_tx_time s) [] 0
                 print_time print_time,
               identify :: format ++ [SpiSend [0x2C; code] 0])
          | Ok period =>
              (Ok tt,
               mkADXL345 rate print_time [] 0 print_time print_time,
               identify :: format
               ++ [SpiSend [0x2C; code] 0;
                   QueryAdxl345
                     [oid env; reqclock; seconds_to_clock env period]
                     reqclock])
          end
      end
    else (Raise (command_error devid 0xe5), s, [identify]).
Proof.
  intros Hid. cbv zeta. unfold do_start. mstep. rewrite Hid. mstep.
  destruct (devid =? 229); cbn [negb]; [|reflexivity].
  mstep. destruct (lookup QUERY_RATES rate) as [code|e]; [|reflexivity].
  mstep. destruct (float_div_int 4 rate) as [period|e]; reflexivity.
Qed.

(** C7: with no stream running, the stop command changes nothing, sends
    nothing to the device and answers with the stopped notice; with a
    stream running, the start command raises "adxl345 already running"
    and leaves every field of the object (buffer, sequence context, start
    times) as it was, again without sending anything. *)
Theorem stop_when_idle_start_when_streaming (env : Env)
    (idle streaming : ADXL345) (stop start : option Z) :
  query_rate idle = 0 ->
  get_int_RATE stop = 0 ->
  query_rate streaming <> 0 ->
  get_int_RATE start <> 0 ->
  do_end env idle = (Ok tt, idle, [])
  /\ cmd_ACCELEROMETER_MEASURE env stop idle
     = (Ok tt, idle, [RespondInfo "adxl345 measurements stopped"])
  /\ cmd_ACCELEROMETER_MEASURE env start streaming
     = (Raise (gcmd_error "adxl345 already running"), streaming, []).
Proof.
  intros Hidle Hstop Hrun Hstart. split; [|split].
  - apply do_end_idle. assumption.
  - unfold cmd_ACCELEROMETER_MEASURE. rewrite Hstop. cbn [Z.eqb].
    unfold bind at 1. rewrite do_end_idle by assumption. reflexivity.
  - unfold cmd_ACCELEROMETER_MEASURE.
    destruct (Z.eqb_spec (get_int_RATE start) 0) as [E|_]; [contradiction|].
    mstep. destruct (Z.eqb_spec (query_rate streaming) 0) as [E|_];
      [contradiction|reflexivity].
Qed.

Lemma stop_when_idle_start_when_streaming_witness :
  let env := bench [x00; xe5] 2 no_answer in
  let streaming := mkADXL345 100 1 [(0, [])] 0 1 1 in
  cmd_ACCELEROMETER_MEASURE env None init
  = (Ok tt, init, [RespondInfo "adxl345 measurements stopped"])
  /\ cmd_ACCELEROMETER_MEASURE env (Some 200) streaming
     = (Raise (gcmd_error "adxl345 already running"), streaming, []).
Proof.
  intros env streaming.
  destruct (stop_when_idle_start_when_streaming env init streaming
              None (Some 200)) as (_ & Hstop & Hstart).
  - reflexivity.
  - reflexivity.
  - cbn. lia.
  - cbn. lia.
  - split; [exact Hstop | exact Hstart].
Defined.

(** C8: a start command given with no stream running that fails leaves
    the object as it was, hence idle: with a rate outside the table it
    raises "Not a valid adxl345 query rate" before anything is sent; with
    a device-id byte other than 0xe5 it raises the invalid-id error after
    the identification read alone; and whatever the exception, the final
    object is the initial one. *)
Theorem failed_start_stays_idle (env : Env) (s : ADXL345) (gcmd : option Z) :
  query_rate s = 0 ->
  get_int_RATE gcmd <> 0 ->
  let start := cmd_ACCELEROMETER_MEASURE env gcmd in
  (contains QUERY_RATES (get_int_RATE gcmd) = false ->
   start s = (Raise (gcmd_error "Not a valid adxl345 query rate"), s, []))
  /\ (forall devid : Z,
        contains QUERY_RATES (get_int_RATE gcmd) = true ->
        getitem (bytearray (spi_response env)) 1 = Ok devid ->
        devid <> 0xe5 ->
        start s = (Raise (command_error devid 0xe5), s,
                   [SpiTransfer [0x80; 0x00]]))
  /\ (forall e : exn,
        outcome start s = Raise e ->
        final start s = s /\ query_rate (final start s) = 0).
Proof.
  intros Hidle Hrate start. subst start.
  unfold outcome, final, cmd_ACCELEROMETER_MEASURE.
  destruct (Z.eqb_spec (get_int_RATE gcmd) 0) as [E|_]; [contradiction|].
  mstep. rewrite Hidle. cbn [Z.eqb negb].
  split; [|split].
  - intros ->. reflexivity.
  - intros devid -> Hid Hne. cbn [negb].
    rewrite (do_start_run env _ devid s Hid).
    destruct (Z.eqb_spec devid 229) as [E|_]; [contradiction|reflexivity].
  - intros e.
    destruct (contains QUERY_RATES (get_int_RATE gcmd)) eqn:Hin; cbn [negb].
    + destruct (getitem (bytearray (spi_response env)) 1) as [devid|e'] eqn:Hid.
      * rewrite (do_start_run env _ devid s Hid).
        destruct (valid_rate_lookup _ Hin) as [code ->].
        rewrite (valid_rate_period _ Hin).
        destruct (devid =? 229); cbn [fst snd].
        -- discriminate.
        -- intros _. split; [reflexivity | assumption].
      * unfold do_start. mstep. rewrite Hid.
        cbn [fst snd]. intros _. split; [reflexivity | assumption].
    + cbn [fst snd]. intros _.
      split; [reflexivity | assumption].
Qed.

Lemma failed_start_stays_idle_witness :
  cmd_ACCELEROMETER_MEASURE (bench [x00; xe5] 2 no_answer) (Some 300) init
  = (Raise (gcmd_error "Not a valid adxl345 query rate"), init, [])
  /\ cmd_ACCELEROMETER_MEASURE (bench [x00; x00] 2 no_answer) (Some 100) init
     = (Raise (command_error 0 0xe5), init, [SpiTransfer [0x80; 0x00]]).
Proof.
  split.
  - assert (Hrate : get_int_RATE (Some 300) <> 0) by (cbn; lia).
    destruct (failed_start_stays_idle
                (bench [x00; xe5] 2 no_answer) init (Some 300) eq_refl Hrate)
      as (Hinvalid & _).
    apply Hinvalid. reflexivity.
  - assert (Hrate : get_int_RATE (Some 100) <> 0) by (cbn; lia).
    destruct (failed_start_stays_idle
                (bench [x00; x00] 2 no_answer) init (Some 100) eq_refl Hrate)
      as (_ & Hmismatch & _).
    apply Hmismatch.
    + reflexivity.
    + reflexivity.
    + lia.
Defined.

(** C10: extending the stop query's sequence number returns the extended
    value and writes nothing back; [do_end], and the stop command around
    it, leave [last_sequence] and both start times as they were, whatever
    the outcome, so only the buffer, the query rate and the last transmit
    time can differ afterwards. *)
Theorem stop_leaves_sequence_context (env : Env) (s : ADXL345) (raw16 : Z) :
  _convert_sequence raw16 s = (Ok (extend (last_sequence s) raw16), s, [])
  /\ final (do_end env) s
     = mkADXL345 (query_rate (final (do_end env) s))
         (last_tx_time (final (do_end env) s))
         (samples (final (do_end env) s))
         (last_sequence s) (samples_start1 s) (samples_start2 s)
  /\ last_sequence (final (cmd_ACCELEROMETER_MEASURE env None) s)
     = last_sequence s
  /\ samples_start1 (final (cmd_ACCELEROMETER_MEASURE env None) s)
     = samples_start1 s
  /\ samples_start2 (final (cmd_ACCELEROMETER_MEASURE env None) s)
     = samples_start2 s.
Proof.
  split; [apply convert_sequence_run|].
  assert (Hcmd : final (cmd_ACCELEROMETER_MEASURE env None) s
                 = final (do_end env) s).
  { unfold cmd_ACCELEROMETER_MEASURE. cbn [get_int_RATE Z.eqb].
    rewrite final_bind. destruct (outcome (do_end env) s); reflexivity. }
  rewrite Hcmd, do_end_final.
  destruct (query_rate s =? 0); [destruct s|]; repeat split.
Qed.

(** ** Python lists, ranges and conversions *)

Lemma getitem_nth {A} (l : list A) (i : Z) (d : A) :
  0 <= i < len l -> getitem l i = Ok (nth (Z.to_nat i) l d).
Proof.
  intros Hi. unfold getitem.
  destruct (Z.ltb_spec i 0) as [Hneg|_]; [lia|].
  destruct (Z.ltb_spec i 0) as [Hneg|_]; [lia|].
  rewrite (nth_error_nth' l d) by (unfold len in Hi; lia).
  reflexivity.
Qed.

Lemma getitem_last {A} (l : list A) (a : A) : getitem (l ++ [a]) (-1) = Ok a.
Proof.
  unfold getitem. cbn [Z.ltb Z.compare]. rewrite len_app_one.
  destruct (Z.ltb_spec (-1 + (len l + 1)) 0) as [Hneg|_];
    [unfold len in Hneg; lia|].
  replace (Z.to_nat (-1 + (len l + 1))) with (List.length l + 0)%nat
    by (unfold len; lia).
  rewrite nth_error_app2 by lia.
  replace (List.length l + 0 - List.length l)%nat with 0%nat by lia.
  reflexivity.
Qed.

Lemma getitem_empty {A} (i : Z) : getitem (@nil A) i = Raise IndexError.
Proof.
  unfold getitem. change (len []) with 0.
  destruct (i <? 0); destruct (_ <? 0); try reflexivity;
    destruct (Z.to_nat _); reflexivity.
Qed.

Lemma len_range (n : Z) : 0 <= n -> len (range n) = n.
Proof.
  intros Hn. unfold len, range. rewrite length_map, length_seq. lia.
Qed.

Lemma in_range (n j : Z) : In j (range n) <-> 0 <= j < n.
Proof.
  unfold range. rewrite in_map_iff. split.
  - intros (k & <- & Hk). apply in_seq in Hk. lia.
  - intros Hj. exists (Z.to_nat j). split; [lia|]. apply in_seq. lia.
Qed.

Lemma nth_range (n i : Z) : 0 <= i < n -> nth (Z.to_nat i) (range n) 0 = i.
Proof.
  intros Hi. unfold range.
  change 0 with (Z.of_nat 0) at 1.
  rewrite map_nth, seq_nth by lia. lia.
Qed.

Lemma getitem_map_range {B} (g : Z -> B) (n i : Z) :
  0 <= i < n -> getitem (map g (range n)) i = Ok (g i).
Proof.
  intros Hi.
  rewrite (getitem_nth _ _ (g 0)).
  - rewrite map_nth, nth_range by assumption. reflexivity.
  - unfold len. rewrite length_map. fold (len (range n)).
    rewrite len_range; lia.
Qed.

Lemma mapM_map {A B} (f : A -> result B) (g : A -> B) (l : list A) :
  (forall a, In a l -> f a = Ok (g a)) -> mapM f l = Ok (map g l).
Proof.
  induction l as [|a l IH]; intros Hf; [reflexivity|].
  cbn [mapM map]. rewrite Hf by (left; reflexivity).
  cbn [rbind]. rewrite IH by (intros; apply Hf; right; assumption).
  reflexivity.
Qed.

Lemma FLOAT_INT_LIMIT_large : 2 ^ 64 <= FLOAT_INT_LIMIT.
Proof. apply Z.leb_le. vm_compute. reflexivity. Qed.

Lemma float_of_int_ok (z : Z) :
  Z.abs z < FLOAT_INT_LIMIT -> float_of_int z = Ok (Z2F z).
Proof.
  intros Hz. unfold float_of_int.
  destruct (Z.ltb_spec (Z.abs z) FLOAT_INT_LIMIT); [reflexivity|lia].
Qed.

Lemma int_mul_float_ok (z : Z) (x : float) :
  Z.abs z < FLOAT_INT_LIMIT -> int_mul_float z x = Ok (Z2F z * x)%float.
Proof.
  intros Hz. unfold int_mul_float. rewrite float_of_int_ok by assumption.
  reflexivity.
Qed.

Lemma byte_int_range (b : byte) : 0 <= byte_int b < 256.
Proof.
  unfold byte_int. pose proof (Byte.to_N_bounded b). lia.
Qed.

(** ** The sample decoder *)

Lemma lor_bytes (lo hi : Z) :
  0 <= lo < 256 -> Z.lor lo (Z.shiftl hi 8) = word16 lo hi.
Proof.
  intros Hlo. unfold word16.
  rewrite Z.lor_comm.
  rewrite <- Z.lxor_lor by (apply shiftl_low_disjoint; lia).
  rewrite <- Z.add_nocarry_lxor by (apply shiftl_low_disjoint; lia).
  rewrite Z.shiftl_mul_pow2 by lia. change (2 ^ 8) with 256. lia.
Qed.

Lemma sign_bit_of_byte (b : byte) :
  Z.shiftl (Z.land (byte_int b) 0x80) 9
  = if byte_int b <? 128 then 0 else 65536.
Proof. destruct b; reflexivity. Qed.

(** The decoding expression of [do_end] is the two's complement value of
    the 16-bit word. *)
Lemma decode_signed16 (lo hi : byte) :
  Z.lor (byte_int lo) (Z.shiftl (byte_int hi) 8)
  - Z.shiftl (Z.land (byte_int hi) 0x80) 9
  = signed16 (word16 (byte_int lo) (byte_int hi)).
Proof.
  pose proof (byte_int_range lo) as Hlo.
  pose proof (byte_int_range hi) as Hhi.
  rewrite lor_bytes, sign_bit_of_byte by assumption.
  unfold signed16, word16.
  destruct (Z.ltb_spec (byte_int hi) 128);
    destruct (Z.ltb_spec (byte_int lo + 256 * byte_int hi) 32768); lia.
Qed.

Lemma len_bytearray (payload : list byte) : len (bytearray payload) = len payload.
Proof. unfold len, bytearray. rewrite length_map. reflexivity. Qed.

Lemma getitem_bytearray (payload : list byte) (i : Z) :
  0 <= i < len payload -> getitem (bytearray payload) i = Ok (byte_at payload i).
Proof.
  intros Hi. rewrite (getitem_nth _ _ (byte_int x00))
    by (rewrite len_bytearray; assumption).
  unfold bytearray, byte_at. rewrite map_nth. reflexivity.
Qed.

Lemma axis_raw_ok (payload : list byte) (k : Z) :
  0 <= k -> k * 2 + 1 < len payload ->
  axis_raw (bytearray payload) k = Ok (axis_value payload k).
Proof.
  intros Hk Hlen. unfold axis_raw.
  rewrite !getitem_bytearray by lia. cbn [rbind].
  unfold axis_value, byte_at. rewrite decode_signed16. reflexivity.
Qed.

Lemma axis_value_range (payload : list byte) (k : Z) :
  -32768 <= axis_value payload k < 32768.
Proof.
  unfold axis_value, signed16, word16, byte_at.
  pose proof (byte_int_range (nth (Z.to_nat (k * 2)) payload x00)).
  pose proof (byte_int_range (nth (Z.to_nat (k * 2 + 1)) payload x00)).
  match goal with |- context [?u <? 32768] => destruct (Z.ltb_spec u 32768) end;
    lia.
Qed.

Lemma sdata_of_ok (payload : list byte) :
  sdata_of (bytearray payload) (len payload) = Ok (physical payload).
Proof.
  unfold sdata_of, physical. apply mapM_map. intros k Hk.
  apply in_range in Hk.
  assert (Hlen : 0 <= len payload) by (unfold len; lia).
  pose proof (Z.mul_div_le (len payload) 2 ltac:(lia)) as Hdiv.
  rewrite axis_raw_ok by lia. cbn [rbind]. unfold physical_at.
  apply int_mul_float_ok.
  pose proof (axis_value_range payload k).
  pose proof FLOAT_INT_LIMIT_large.
  assert (2 ^ 64 = 18446744073709551616) by reflexivity. lia.
Qed.

(** 13-bit quantities that the device has sign-extended to 16 bits read
    the same either way. *)
Lemma signed16_sign_extend13 (u : Z) :
  0 <= u < 65536 -> -4096 <= signed16 u < 4096 ->
  signed16 u = sign_extend13 u.
Proof.
  unfold signed16, sign_extend13. intros Hu Hs.
  pose proof (Z.div_mod u 8192 ltac:(lia)) as Hdm.
  pose proof (Z.mod_pos_bound u 8192 ltac:(lia)) as Hm.
  destruct (Z.ltb_spec u 32768); destruct (Z.ltb_spec (u mod 8192) 4096); lia.
Qed.

(** C2 as the code has it: every axis field is read as the little-endian
    16-bit two's complement value of its two bytes (bit 15, the top bit of
    the high byte, is the sign), which is the 13-bit sign extension
    whenever the value fits thirteen bits; the physical value is that
    integer times [SCALE = 0.004 * 9.80665 * 1000]. *)
Theorem axis_decoding (payload : list byte) (k : Z) :
  0 <= k < len payload / 2 ->
  let lo := byte_at payload (k * 2) in
  let hi := byte_at payload (k * 2 + 1) in
  axis_raw (bytearray payload) k = Ok (signed16 (word16 lo hi))
  /\ signed16 (word16 lo hi) = (if hi <? 128 then lo + 256 * hi
                                else lo + 256 * hi - 65536)
  /\ (-4096 <= signed16 (word16 lo hi) < 4096 ->
      signed16 (word16 lo hi) = sign_extend13 (word16 lo hi))
  /\ sdata_of (bytearray payload) (len payload) = Ok (physical payload)
  /\ getitem (physical payload) k
     = Ok (Z2F (signed16 (word16 lo hi)) * SCALE)%float
  /\ SCALE = (0.004 * 9.80665 * 1000)%float.
Proof.
  intros Hk lo hi.
  assert (Hlen : 0 <= len payload) by (unfold len; lia).
  pose proof (Z.mul_div_le (len payload) 2 ltac:(lia)) as Hdiv.
  pose proof (byte_int_range (nth (Z.to_nat (k * 2)) payload x00)) as Hlo.
  pose proof (byte_int_range (nth (Z.to_nat (k * 2 + 1)) payload x00)) as Hhi.
  fold (byte_at payload (k * 2)) in Hlo. fold lo in Hlo.
  fold (byte_at payload (k * 2 + 1)) in Hhi. fold hi in Hhi.
  split; [|split; [|split; [|split; [|split]]]].
  - apply axis_raw_ok; lia.
  - unfold signed16, word16.
    destruct (Z.ltb_spec hi 128); destruct (Z.ltb_spec (lo + 256 * hi) 32768);
      lia.
  - apply signed16_sign_extend13. unfold word16. lia.
  - apply sdata_of_ok.
  - unfold physical. rewrite getitem_map_range by assumption. reflexivity.
  - reflexivity.
Qed.

Lemma axis_decoding_witness :
  let payload := [x64; x00; x9c; xff; xff; x0f] in
  axis_raw (bytearray payload) 1 = Ok (-100)
  /\ getitem (physical payload) 1 = Ok (Z2F (-100) * SCALE)%float.
Proof.
  intros payload.
  assert (Hk : 0 <= 1 < len payload / 2) by (vm_compute; split; congruence).
  destruct (axis_decoding payload 1 Hk) as (Hraw & _ & _ & _ & Hphys & _).
  split; [exact Hraw | exact Hphys].
Defined.

(** C2 as the specification words it fails on a field whose bit 12 is set
    and whose bit 15 is clear: the bytes 0x00 0x10 decode to 4096, where a
    13-bit sign extension gives -4096. *)
Lemma axis_decoding_not_13_bit :
  axis_raw (bytearray [x00; x10; x00; x00; x00; x00]) 0 = Ok 4096
  /\ sign_extend13 (word16 (byte_int x00) (byte_int x10)) = -4096
  /\ axis_raw (bytearray [x00; x10; x00; x00; x00; x00]) 0
     <> Ok (sign_extend13 (word16 (byte_int x00) (byte_int x10))).
Proof.
  split; [reflexivity|]. split; [reflexivity|].
  vm_compute. discriminate.
Qed.

(** ** The timing correlator *)

Lemma float_div_int_ok (x : float) (n : Z) :
  n <> 0 -> convertible n -> float_div_int x n = Ok (x / Z2F n)%float.
Proof.
  intros Hn Hc. unfold float_div_int. rewrite float_of_int_ok by assumption.
  cbn [rbind]. destruct (Z.eqb_spec n 0); [contradiction|reflexivity].
Qed.

Lemma float_div_int_zero (x : float) :
  float_div_int x 0 = Raise ZeroDivisionError.
Proof.
  unfold float_div_int. rewrite float_of_int_ok; [reflexivity|].
  pose proof FLOAT_INT_LIMIT_large.
  assert (0 < 2 ^ 64) by reflexivity. unfold convertible. cbn [Z.abs]. lia.
Qed.

Lemma for_each_run {A} (l : list A) (body : A -> Z -> M Z)
    (cnt : A -> Z) (evs : A -> list event) (s : ADXL345) :
  (forall a acc, In a l -> body a acc s = (Ok (acc + cnt a), s, evs a)) ->
  forall acc,
    for_each l body acc s = (Ok (acc + Zsum (map cnt l)), s, flat_map evs l).
Proof.
  induction l as [|a l IH]; intros Hbody acc.
  - cbn [for_each map Zsum fold_right flat_map]. unfold ret.
    rewrite Z.add_0_r. reflexivity.
  - cbn [for_each map Zsum fold_right flat_map]. unfold bind.
    rewrite Hbody by (left; reflexivity).
    rewrite IH by (intros; apply Hbody; right; assumption).
    fold (Zsum (map cnt l)).
    rewrite Z.add_assoc. reflexivity.
Qed.

Lemma flat_map_singleton {A B} (f : A -> B) (l : list A) :
  flat_map (fun a => [f a]) l = map f l.
Proof.
  induction l as [|a l IH]; [reflexivity|].
  cbn [flat_map map app]. rewrite IH. reflexivity.
Qed.

Lemma Zsum_ones {A} (l : list A) : Zsum (map (fun _ => 1) l) = len l.
Proof.
  induction l as [|a l IH]; [reflexivity|].
  cbn [map Zsum fold_right]. fold (Zsum (map (fun _ : A => 1) l)).
  rewrite IH. unfold len. cbn [List.length]. lia.
Qed.

(** One stored batch written out: a row per 6-byte group. *)
Lemma write_batch_run (fine_start seq_to_time sample_to_time : float)
    (batch : Z * list byte) (actual_count : Z) (s : ADXL345) :
  batch_convertible batch ->
  write_batch fine_start seq_to_time sample_to_time batch actual_count s
  = (Ok (actual_count + groups batch), s,
     map (fun j =>
            FileWrite
              (LRow (fine_start + Z2F (fst batch) * seq_to_time
                     + Z2F j * sample_to_time)
                    (physical_at (snd batch) (j * 3))
                    (physical_at (snd batch) (j * 3 + 1))
                    (physical_at (snd batch) (j * 3 + 2))))
         (range (groups batch))).
Proof.
  intros [Hseq Hlen]. unfold write_batch. mstep.
  rewrite sdata_of_ok. mstep.
  rewrite int_mul_float_ok by assumption. mstep.
  assert (Hnonneg : 0 <= len (snd batch)) by (unfold len; lia).
  pose proof (Z.mul_div_le (len (snd batch)) 6 ltac:(lia)) as Hsix.
  pose proof (Z.div_pos (len (snd batch)) 6 Hnonneg ltac:(lia)) as Hgroups.
  erewrite for_each_run with (cnt := fun _ => 1).
  - rewrite Zsum_ones, len_range by assumption.
    rewrite flat_map_singleton. reflexivity.
  - intros j acc Hj. apply in_range in Hj. mstep.
    rewrite int_mul_float_ok
      by (unfold convertible in *; rewrite Z.abs_eq in * by lia; lia).
    mstep. unfold physical.
    assert (Hhalf : 6 * (len (snd batch) / 6) <= 2 * (len (snd batch) / 2)).
    { pose proof (Z.div_mod (len (snd batch)) 6 ltac:(lia)).
      pose proof (Z.mod_pos_bound (len (snd batch)) 6 ltac:(lia)).
      pose proof (Z.div_mod (len (snd batch)) 2 ltac:(lia)).
      pose proof (Z.mod_pos_bound (len (snd batch)) 2 ltac:(lia)).
      lia. }
    rewrite !getitem_map_range by lia.
    reflexivity.
Qed.

Lemma do_end_empty (env : Env) (s : ADXL345) :
  query_rate s <> 0 -> samples s = [] ->
  do_end env s = (Raise IndexError, stopped env s, [stop_query env]).
Proof.
  intros Hrun Hempty. unfold do_end. mstep.
  destruct (Z.eqb_spec (query_rate s) 0) as [E|_]; [contradiction|].
  mstep. rewrite convert_sequence_run. mstep.
  rewrite Hempty, getitem_empty. reflexivity.
Qed.

Lemma do_end_zero_count (env : Env) (s : ADXL345)
    (front : list (Z * list byte)) (last_batch : Z * list byte) :
  query_rate s <> 0 -> samples s = front ++ [last_batch] ->
  total_count_of (end_seq_of env s) last_batch = 0 ->
  do_end env s = (Raise ZeroDivisionError, stopped env s, [stop_query env]).
Proof.
  intros Hrun Hsamples Hzero. unfold do_end. mstep.
  destruct (Z.eqb_spec (query_rate s) 0) as [E|_]; [contradiction|].
  mstep. rewrite convert_sequence_run. mstep.
  rewrite Hsamples, getitem_last. mstep.
  unfold total_count_of, end_seq_of, groups in Hzero. rewrite Hzero.
  rewrite float_div_int_zero. reflexivity.
Qed.

Lemma do_end_run (env : Env) (s : ADXL345)
    (front : list (Z * list byte)) (last_batch : Z * list byte) :
  query_rate s <> 0 -> samples s = front ++ [last_batch] ->
  total_count_of (end_seq_of env s) last_batch <> 0 ->
  convertible (total_count_of (end_seq_of env s) last_batch) ->
  Forall batch_convertible (samples s) ->
  do_end env s
  = (Ok tt, stopped env s, stop_query env :: report env s last_batch).
Proof.
  intros Hrun Hsamples Hcount Hconv Hbatches. unfold do_end. mstep.
  destruct (Z.eqb_spec (query_rate s) 0) as [E|_]; [contradiction|].
  mstep. rewrite convert_sequence_run. mstep.
  rewrite Hsamples, getitem_last. mstep.
  unfold total_count_of, end_seq_of, groups in Hcount, Hconv.
  rewrite float_div_int_ok by assumption. mstep.
  rewrite <- Hsamples.
  rewrite (for_each_run (samples s) _ groups
             (fun batch =>
                map FileWrite
                  (batch_rows (samples_start2 s)
                     (sample_interval (samples_start2 s)
                        (_clock_to_print_time env
                           (end2_time (query_end_response env)))
                        (total_count_of (end_seq_of env s) last_batch))
                     batch))).
  - mstep. rewrite Z.add_0_l. reflexivity.
  - intros batch acc Hin. rewrite write_batch_run.
    + unfold batch_rows. rewrite map_map. reflexivity.
    + rewrite Forall_forall in Hbatches. apply Hbatches. assumption.
Qed.

(** With a non-empty buffer and convertible integers, stopping fails
    exactly when the total count is zero, and then by the division. *)
Lemma do_end_fails_iff_zero_count (env : Env) (s : ADXL345)
    (front : list (Z * list byte)) (last_batch : Z * list byte) :
  query_rate s <> 0 -> samples s = front ++ [last_batch] ->
  convertible (total_count_of (end_seq_of env s) last_batch) ->
  Forall batch_convertible (samples s) ->
  (outcome (do_end env) s = Raise ZeroDivisionError
   <-> total_count_of (end_seq_of env s) last_batch = 0)
  /\ (outcome (do_end env) s = Ok tt
      <-> total_count_of (end_seq_of env s) last_batch <> 0).
Proof.
  intros Hrun Hsamples Hconv Hbatches. unfold outcome.
  destruct (Z.eq_dec (total_count_of (end_seq_of env s) last_batch) 0)
    as [Hzero|Hpos].
  - rewrite (do_end_zero_count env s front last_batch) by assumption.
    cbn [fst]. split; split; intros; try reflexivity; try assumption;
      try discriminate; contradiction.
  - rewrite (do_end_run env s front last_batch) by assumption.
    cbn [fst]. split; split; intros; try reflexivity; try assumption;
      try discriminate; contradiction.
Qed.

Lemma sample_interval_example : sample_interval 10 14 4000 = 0.001%float.
Proof. vm_compute. reflexivity. Qed.

(** C1: when the stop succeeds, [do_end] extends the end sequence, takes
    [total_count = (end_sequence - 1) * 8 + groups of the last batch],
    reports [(end2_time - fine_start) / total_count] as the time per
    sample, and writes for sample [j] of every retained batch the time
    [fine_start + extended_sequence * (interval * 8) + j * interval]; with
    [fine_start = 10], [end2_time = 14] and [total_count = 4000] the
    interval is [0.001] and sample [j] of a batch with extended sequence 0
    is stamped [10 + j * 0.001]. *)
Theorem stop_time_correlation (env : Env) (s : ADXL345)
    (front : list (Z * list byte)) (last_batch : Z * list byte) :
  let params := query_end_response env in
  let end_seq := extend (last_sequence s) (end_sequence params) in
  let total_count := (end_seq - 1) * 8 + len (snd last_batch) / 6 in
  let fine_start := samples_start2 s in
  let end2 := _clock_to_print_time env (end2_time params) in
  let interval := ((end2 - fine_start) / Z2F total_count)%float in
  query_rate s <> 0 ->
  samples s = front ++ [last_batch] ->
  total_count <> 0 ->
  convertible total_count ->
  Forall batch_convertible (samples s) ->
  outcome (_convert_sequence (end_sequence params)) s = Ok end_seq
  /\ do_end env s
     = (Ok tt, stopped env s, stop_query env :: report env s last_batch)
  /\ In (FileWrite (LSummary (limit_count params) end_seq interval))
       (emitted (do_end env) s)
  /\ (forall batch j,
        In batch (samples s) -> 0 <= j < len (snd batch) / 6 ->
        In (FileWrite
              (LRow (fine_start + Z2F (fst batch) * (interval * 8)
                     + Z2F j * interval)
                    (physical_at (snd batch) (j * 3))
                    (physical_at (snd batch) (j * 3 + 1))
                    (physical_at (snd batch) (j * 3 + 2))))
           (emitted (do_end env) s))
  /\ sample_interval 10 14 4000 = 0.001%float
  /\ (forall j, timestamp 10 (sample_interval 10 14 4000) 0 j
                = (10 + Z2F j * 0.001)%float).
Proof.
  intros params end_seq total_count fine_start end2 interval
    Hrun Hsamples Hcount Hconv Hbatches.
  assert (Hdone : do_end env s
                  = (Ok tt, stopped env s,
                     stop_query env :: report env s last_batch))
    by (apply (do_end_run env s front last_batch); assumption).
  split; [unfold outcome; rewrite convert_sequence_run; reflexivity|].
  split; [exact Hdone|].
  unfold emitted. rewrite Hdone. cbn [snd]. unfold report.
  split; [|split; [|split]].
  - right. right. right. left. reflexivity.
  - intros batch j Hin Hj.
    right. apply in_or_app. right. apply in_or_app. left.
    apply in_flat_map. exists batch. split; [assumption|].
    apply in_map. unfold batch_rows.
    apply in_map_iff. exists j. split; [reflexivity|].
    apply in_range. assumption.
  - apply sample_interval_example.
  - intros j. rewrite sample_interval_example.
    unfold timestamp, batch_interval.
    assert (Hbase : (10 + Z2F 0 * (0.001 * 8))%float = 10%float)
      by (vm_compute; reflexivity).
    rewrite Hbase. reflexivity.
Qed.

Lemma stop_time_correlation_witness :
  do_end (bench [] 20 capture_end) capture
  = (Ok tt, stopped (bench [] 20 capture_end) capture,
     stop_query (bench [] 20 capture_end)
     :: report (bench [] 20 capture_end) capture (499, eight_samples))
  /\ In (FileWrite (LSummary 0 500 0.001))
       (emitted (do_end (bench [] 20 capture_end)) capture)
  /\ In (FileWrite
           (LRow (10 + Z2F 0 * (0.001 * 8) + Z2F 3 * 0.001)
                 (Z2F 100 * SCALE) (Z2F (-100) * SCALE) (Z2F 4095 * SCALE)))
       (emitted (do_end (bench [] 20 capture_end)) capture).
Proof.
  assert (Hrun : query_rate capture <> 0) by (cbn; lia).
  assert (Hcount :
            (extend (last_sequence capture)
               (end_sequence (query_end_response (bench [] 20 capture_end)))
             - 1) * 8 + len (snd (499, eight_samples)) / 6 <> 0)
    by (vm_compute; discriminate).
  assert (Hconv :
            convertible
              ((extend (last_sequence capture)
                  (end_sequence (query_end_response (bench [] 20 capture_end)))
                - 1) * 8 + len (snd (499, eight_samples)) / 6))
    by (vm_compute; reflexivity).
  assert (Hbatches : Forall batch_convertible (samples capture))
    by (repeat constructor; vm_compute; reflexivity).
  destruct (stop_time_correlation (bench [] 20 capture_end) capture
              [(0, eight_samples)] (499, eight_samples)
              Hrun eq_refl Hcount Hconv Hbatches)
    as (_ & Hdone & Hsummary & Hrows & _).
  split; [exact Hdone|]. split; [exact Hsummary|].
  apply (Hrows (0, eight_samples) 3).
  - left. reflexivity.
  - vm_compute. split; congruence.
Defined.

(** C5 on the code: stopping a stream whose total count is zero performs
    the division and raises [ZeroDivisionError]; stopping one whose buffer
    is empty raises [IndexError] before the count is formed.  Either way
    the buffer has been emptied, the query rate reset, and nothing but the
    stop query has left the object. *)
Theorem stop_with_zero_count_divides (env : Env) :
  query_end_response env
  = {| end1_time := 13990; end2_time := 14000; limit_count := 0;
       end_sequence := 1 |} ->
  total_count_of (end_seq_of env (mkADXL345 100 10 [(0, [])] 0 10 10)) (0, [])
  = 0
  /\ do_end env (mkADXL345 100 10 [(0, [])] 0 10 10)
     = (Raise ZeroDivisionError,
        mkADXL345 0 (get_last_move_time env) [] 0 10 10,
        [stop_query env])
  /\ do_end env (mkADXL345 100 10 [] 0 10 10)
     = (Raise IndexError,
        mkADXL345 0 (get_last_move_time env) [] 0 10 10,
        [stop_query env]).
Proof.
  intros Hanswer.
  assert (Hzero : total_count_of
                    (end_seq_of env (mkADXL345 100 10 [(0, [])] 0 10 10))
                    (0, []) = 0).
  { unfold end_seq_of. rewrite Hanswer. reflexivity. }
  split; [exact Hzero|]. split.
  - rewrite (do_end_zero_count env _ [] (0, [])).
    + reflexivity.
    + cbn. lia.
    + reflexivity.
    + exact Hzero.
  - rewrite do_end_empty.
    + reflexivity.
    + cbn. lia.
    + reflexivity.
Qed.

Lemma stop_with_zero_count_divides_witness :
  do_end (bench [] 20 {| end1_time := 13990; end2_time := 14000;
                         limit_count := 0; end_sequence := 1 |})
    (mkADXL345 100 10 [(0, [])] 0 10 10)
  = (Raise ZeroDivisionError, mkADXL345 0 20 [] 0 10 10,
     [QueryAdxl345End [0; 0; 0] 20000]).
Proof.
  destruct (stop_with_zero_count_divides
              (bench [] 20 {| end1_time := 13990; end2_time := 14000;
                              limit_count := 0; end_sequence := 1 |})
              eq_refl) as (_ & Hdiv & _).
  rewrite Hdiv. vm_compute. reflexivity.
Defined.

(** ** Starting a capture *)

Lemma lookup_contains {V} (d : list (Z * V)) (k : Z) (v : V) :
  lookup d k = Ok v -> contains d k = true.
Proof.
  induction d as [|[k' v'] d IH]; cbn [lookup contains existsb fst];
    [discriminate|].
  destruct (k =? k'); [reflexivity|]. intros H. apply IH. exact H.
Qed.

Lemma lookup_missing {V} (d : list (Z * V)) (k : Z) :
  contains d k = false -> lookup d k = Raise KeyError.
Proof.
  induction d as [|[k' v'] d IH]; cbn [lookup contains existsb fst];
    [reflexivity|].
  destruct (k =? k'); [discriminate|]. exact IH.
Qed.

Lemma getitem_out_of_range {A} (l : list A) (i : Z) :
  0 <= i -> len l <= i -> getitem l i = Raise IndexError.
Proof.
  intros Hi Hlen. unfold getitem.
  destruct (Z.ltb_spec i 0) as [Hneg|_]; [lia|].
  destruct (Z.ltb_spec i 0) as [Hneg|_]; [lia|].
  destruct (nth_error l (Z.to_nat i)) eqn:Hnth; [|reflexivity].
  assert (Hlt : (Z.to_nat i < List.length l)%nat)
    by (apply nth_error_Some; congruence).
  unfold len in Hlen. lia.
Qed.

Lemma rate_code_relation (rate code : Z) :
  lookup QUERY_RATES rate = Ok code ->
  rate = 25 * 2 ^ (code - 8) /\ 0x8 <= code <= 0xf.
Proof.
  intros Hlookup.
  pose proof (contains_QUERY_RATES rate (lookup_contains _ _ _ Hlookup)) as Hin.
  cbn [In] in Hin.
  repeat (destruct Hin as [<-|Hin];
          [vm_compute in Hlookup; injection Hlookup as <-;
           split; [reflexivity | lia]|]).
  contradiction.
Qed.

(** X1 (do_start, cmd_ACCELEROMETER_MEASURE): a start command with a rate
    of the table, given with no stream running to a device that answers
    0xe5, returns normally; it has read the device id, written the data
    format (ordered after the last transmit time, when there is one), the
    FIFO mode and the rate code, then sent the query with the rest ticks of
    [4 / rate] seconds; the buffer is empty, the sequence context 0, both
    start times and the last transmit time are the toolhead's last move
    time and the query rate is the requested one.  The rate code [c]
    written satisfies [rate = 25 * 2^(c - 8)]. *)
Theorem start_configures_and_resets (env : Env) (s : ADXL345)
    (gcmd : option Z) (code : Z) :
  query_rate s = 0 ->
  lookup QUERY_RATES (get_int_RATE gcmd) = Ok code ->
  getitem (bytearray (spi_response env)) 1 = Ok 0xe5 ->
  cmd_ACCELEROMETER_MEASURE env gcmd s
  = (Ok tt,
     mkADXL345 (get_int_RATE gcmd) (get_last_move_time env) [] 0
       (get_last_move_time env) (get_last_move_time env),
     [ SpiTransfer [0x80; 0x00];
       SpiSend [0x31; 0x0B]
         (if float_truthy (last_tx_time s)
          then print_time_to_clock env (last_tx_time s) else 0);
       SpiSend [0x38; 0x80] 0;
       SpiSend [0x2C; code] 0;
       QueryAdxl345
         [ oid env;
           print_time_to_clock env (get_last_move_time env);
           seconds_to_clock env (4 / Z2F (get_int_RATE gcmd))%float ]
         (print_time_to_clock env (get_last_move_time env)) ])
  /\ get_int_RATE gcmd = 25 * 2 ^ (code - 8)
  /\ 0x8 <= code <= 0xf.
Proof.
  intros Hidle Hlookup Hid.
  pose proof (lookup_contains _ _ _ Hlookup) as Hin.
  split; [|apply rate_code_relation; assumption].
  unfold cmd_ACCELEROMETER_MEASURE.
  destruct (Z.eqb_spec (get_int_RATE gcmd) 0) as [Hzero|_].
  { rewrite Hzero in Hin. discriminate Hin. }
  mstep. rewrite Hidle, Hin. cbn [Z.eqb negb].
  rewrite (do_start_run env _ 0xe5 s Hid), Hlookup.
  rewrite (valid_rate_period _ Hin). reflexivity.
Qed.

Lemma start_configures_and_resets_witness :
  cmd_ACCELEROMETER_MEASURE (bench [x00; xe5] 2 no_answer) (Some 3200) init
  = (Ok tt, mkADXL345 3200 2 [] 0 2 2,
     [ SpiTransfer [0x80; 0x00]; SpiSend [0x31; 0x0B] 0;
       SpiSend [0x38; 0x80] 0; SpiSend [0x2C; 0xf] 0;
       QueryAdxl345 [0; 2000; 1] 2000 ]).
Proof.
  destruct (start_configures_and_resets
              (bench [x00; xe5] 2 no_answer) init (Some 3200) 0xf
              eq_refl eq_refl eq_refl) as (Hrun & _).
  rewrite Hrun. vm_compute. reflexivity.
Defined.



(** X3 (do_start): called with a rate outside the table, [do_start] raises
    [KeyError] only after the data format and the FIFO mode have been
    written to the device; with an answer of fewer than two bytes it raises
    [IndexError] right after the identification read. *)
Theorem do_start_edge_cases (env : Env) (rate : Z) (s : ADXL345) :
  (contains QUERY_RATES rate = false ->
   getitem (bytearray (spi_response env)) 1 = Ok 0xe5 ->
   do_start env rate s
   = (Raise KeyError, s,
      [ SpiTransfer [0x80; 0x00];
        SpiSend [0x31; 0x0B]
          (if float_truthy (last_tx_time s)
           then print_time_to_clock env (last_tx_time s) else 0);
        SpiSend [0x38; 0x80] 0 ]))
  /\ (len (spi_response env) < 2 ->
      do_start env rate s
      = (Raise IndexError, s, [SpiTransfer [0x80; 0x00]])).
Proof.
  split.
  - intros Hout Hid. rewrite (do_start_run env rate 0xe5 s Hid).
    rewrite (lookup_missing _ _ Hout). reflexivity.
  - intros Hshort. unfold do_start. mstep.
    rewrite getitem_out_of_range by (rewrite ?len_bytearray; lia).
    reflexivity.
Qed.

Lemma do_start_edge_cases_witness :
  do_start (bench [x00; xe5] 2 no_answer) 300 init
  = (Raise KeyError, init,
     [ SpiTransfer [0x80; 0x00]; SpiSend [0x31; 0x0B] 0;
       SpiSend [0x38; 0x80] 0 ])
  /\ do_start (bench [xe5] 2 no_answer) 100 init
     = (Raise IndexError, init, [SpiTransfer [0x80; 0x00]]).
Proof.
  split.
  - destruct (do_start_edge_cases (bench [x00; xe5] 2 no_answer) 300 init)
      as (Hkey & _).
    rewrite Hkey by reflexivity. reflexivity.
  - destruct (do_start_edge_cases (bench [xe5] 2 no_answer) 100 init)
      as (_ & Hindex).
    apply Hindex. vm_compute. reflexivity.
Defined.

(** ** Stopping, and starting again *)

(** X4 (do_end, do_start): the data-format write of a start that follows
    a stop is ordered after the clock of the stop's print time (unless
    that time is zero); on an object never used it carries no minimum
    clock. *)
Theorem restart_waits_for_stop (env_stop env_start : Env) (s : ADXL345)
    (rate : Z) :
  query_rate s <> 0 ->
  getitem (bytearray (spi_response env_start)) 1 = Ok 0xe5 ->
  nth_error (emitted (do_start env_start rate) (final (do_end env_stop) s)) 1
  = Some (SpiSend [0x31; 0x0B]
            (if float_truthy (get_last_move_time env_stop)
             then print_time_to_clock env_start (get_last_move_time env_stop)
             else 0))
  /\ nth_error (emitted (do_start env_start rate) init) 1
     = Some (SpiSend [0x31; 0x0B] 0).
Proof.
  intros Hrun Hid. unfold emitted.
  rewrite !(do_start_run env_start rate 0xe5 _ Hid). cbv zeta.
  rewrite do_end_final.
  destruct (Z.eqb_spec (query_rate s) 0) as [E|_]; [contradiction|].
  cbn [Z.eqb last_tx_time init].
  split.
  - destruct (lookup QUERY_RATES rate); [destruct (float_div_int 4 rate)|];
      reflexivity.
  - destruct (lookup QUERY_RATES rate); [destruct (float_div_int 4 rate)|];
      reflexivity.
Qed.

Lemma restart_waits_for_stop_witness :
  nth_error
    (emitted (do_start (bench [x00; xe5] 30 no_answer) 100)
       (final (do_end (bench [] 20 capture_end)) capture)) 1
  = Some (SpiSend [0x31; 0x0B] 20000).
Proof.
  assert (Hrun : query_rate capture <> 0) by (cbn; lia).
  destruct (restart_waits_for_stop (bench [] 20 capture_end)
              (bench [x00; xe5] 30 no_answer) capture 100 Hrun eq_refl)
    as (Hafter & _).
  rewrite Hafter. vm_compute. reflexivity.
Defined.


(** X6 (_handle_adxl345_start, do_end): an "adxl345_start" response
    replaces both start times by the print times of its two clocks and
    touches nothing else; they are the start times the next report prints,
    and the second one is the origin of its sample times. *)
Theorem start_response_sets_epoch (env env' : Env) (params : StartParams)
    (s : ADXL345) (front : list (Z * list byte)) (last_batch : Z * list byte) :
  let s' := final (_handle_adxl345_start env params) s in
  let start1 := _clock_to_print_time env (start1_time params) in
  let start2 := _clock_to_print_time env (start2_time params) in
  query_rate s <> 0 ->
  samples s = front ++ [last_batch] ->
  total_count_of (end_seq_of env' s) last_batch <> 0 ->
  convertible (total_count_of (end_seq_of env' s) last_batch) ->
  Forall batch_convertible (samples s) ->
  _handle_adxl345_start env params s
  = (Ok tt,
     mkADXL345 (query_rate s) (last_tx_time s) (samples s) (last_sequence s)
       start1 start2, [])
  /\ nth_error (emitted (do_end env') s') 2
     = Some (FileWrite
               (LStartEnd start1 start2
                  (_clock_to_print_time env' (end1_time (query_end_response env')))
                  (_clock_to_print_time env' (end2_time (query_end_response env')))))
  /\ forall batch j,
       In batch (samples s) -> 0 <= j < groups batch ->
       In (FileWrite
             (sample_row start2
                (sample_interval start2
                   (_clock_to_print_time env' (end2_time (query_end_response env')))
                   (total_count_of (end_seq_of env' s) last_batch))
                batch j))
          (emitted (do_end env') s').
Proof.
  intros s' start1 start2 Hrun Hsamples Hcount Hconv Hbatches.
  assert (Hstart : _handle_adxl345_start env params s
                   = (Ok tt,
                      mkADXL345 (query_rate s) (last_tx_time s) (samples s)
                        (last_sequence s) start1 start2, []))
    by reflexivity.
  split; [exact Hstart|].
  assert (Hs' : s' = mkADXL345 (query_rate s) (last_tx_time s) (samples s)
                       (last_sequence s) start1 start2).
  { unfold s', final. rewrite Hstart. reflexivity. }
  assert (Hdone : do_end env' s'
                  = (Ok tt, stopped env' s',
                     stop_query env' :: report env' s' last_batch)).
  { apply (do_end_run env' s' front last_batch); rewrite Hs'; assumption. }
  unfold emitted. rewrite Hdone. cbn [snd]. split.
  - rewrite Hs'. reflexivity.
  - intros batch j Hin Hj. right. unfold report.
    apply in_or_app. right. apply in_or_app. left.
    apply in_flat_map. exists batch. split; [rewrite Hs'; exact Hin|].
    apply in_map. unfold batch_rows. apply in_map_iff. exists j.
    split; [rewrite Hs'; reflexivity|]. apply in_range. exact Hj.
Qed.

Lemma start_response_sets_epoch_witness :
  nth_error
    (emitted (do_end (bench [] 20 capture_end))
       (final (_handle_adxl345_start (bench [] 0 no_answer)
                 {| start1_time := 9000; start2_time := 10000 |})
          (mkADXL345 3200 1 [(0, eight_samples); (499, eight_samples)] 499 1 1)))
    2
  = Some (FileWrite (LStartEnd 9 10 13.99 14)).
Proof.
  assert (Hrun : query_rate
                   (mkADXL345 3200 1 [(0, eight_samples); (499, eight_samples)]
                      499 1 1) <> 0) by (cbn; lia).
  destruct (start_response_sets_epoch (bench [] 0 no_answer)
              (bench [] 20 capture_end)
              {| start1_time := 9000; start2_time := 10000 |}
              (mkADXL345 3200 1 [(0, eight_samples); (499, eight_samples)]
                 499 1 1)
              [(0, eight_samples)] (499, eight_samples) Hrun eq_refl)
    as (_ & Hline & _).
  - vm_compute. discriminate.
  - vm_compute. reflexivity.
  - repeat constructor; vm_compute; reflexivity.
  - rewrite Hline. vm_compute. reflexivity.
Defined.

(** ** What the methods send *)



Section Emits.
Variable P : event -> Prop.










End Emits.





(** ** The report's counters *)

Lemma filter_rows (fine_start interval : float) (batch : Z * list byte)
    (js : list Z) :
  filter is_row (map FileWrite (map (sample_row fine_start interval batch) js))
  = map FileWrite (map (sample_row fine_start interval batch) js).
Proof.
  induction js as [|j js IH]; [reflexivity|].
  cbn [map filter is_row sample_row]. rewrite IH. reflexivity.
Qed.

Lemma groups_nonneg (batch : Z * list byte) : 0 <= groups batch.
Proof. unfold groups, len. apply Z.div_pos; lia. Qed.

Lemma len_batch_rows (fine_start interval : float) (batch : Z * list byte) :
  len (map FileWrite (batch_rows fine_start interval batch)) = groups batch.
Proof.
  unfold batch_rows, len. rewrite !length_map.
  fold (len (range (len (snd batch) / 6))).
  apply len_range. apply groups_nonneg.
Qed.

Lemma len_app {A} (l l' : list A) : len (l ++ l') = len l + len l'.
Proof. unfold len. rewrite length_app. lia. Qed.

Lemma rows_of_report (fine_start interval : float)
    (l : list (Z * list byte)) :
  len (filter is_row
         (flat_map (fun batch =>
                      map FileWrite (batch_rows fine_start interval batch)) l))
  = Zsum (map groups l).
Proof.
  induction l as [|batch l IH]; [reflexivity|].
  cbn [flat_map map Zsum fold_right]. fold (Zsum (map groups l)).
  rewrite filter_app, len_app, IH. unfold batch_rows at 1.
  rewrite filter_rows. fold (batch_rows fine_start interval batch).
  rewrite len_batch_rows. reflexivity.
Qed.

(** X8 (do_end): in the report of a successful stop the count line comes
    last before the file is closed; its second number is the number of
    sample rows written, one per complete 6-byte group of each retained
    batch, and its third is the total count less that number. *)
Theorem report_counts_rows (env : Env) (s : ADXL345)
    (front : list (Z * list byte)) (last_batch : Z * list byte) :
  query_rate s <> 0 ->
  samples s = front ++ [last_batch] ->
  total_count_of (end_seq_of env s) last_batch <> 0 ->
  convertible (total_count_of (end_seq_of env s) last_batch) ->
  Forall batch_convertible (samples s) ->
  let written := len (filter is_row (emitted (do_end env) s)) in
  let total := total_count_of (end_seq_of env s) last_batch in
  written = Zsum (map groups (samples s))
  /\ exists before,
       emitted (do_end env) s
       = before ++ [FileWrite (LCount total written (total - written));
                    FileClose].
Proof.
  intros Hrun Hsamples Hcount Hconv Hbatches written total.
  assert (Hwritten : written = Zsum (map groups (samples s))).
  { unfold written, emitted.
    rewrite (do_end_run env s front last_batch) by assumption.
    cbn [snd]. unfold stop_query, report. cbn [app filter is_row].
    rewrite filter_app. cbn [filter is_row]. rewrite app_nil_r.
    apply rows_of_report. }
  split; [exact Hwritten|].
  unfold emitted.
  rewrite (do_end_run env s front last_batch) by assumption.
  cbn [snd]. unfold report. rewrite Hwritten.
  eexists. rewrite app_comm_cons, app_assoc. reflexivity.
Qed.

Lemma report_counts_rows_witness :
  len (filter is_row (emitted (do_end (bench [] 20 capture_end)) capture)) = 16.
Proof.
  assert (Hrun : query_rate capture <> 0) by (cbn; lia).
  destruct (report_counts_rows (bench [] 20 capture_end) capture
              [(0, eight_samples)] (499, eight_samples) Hrun eq_refl)
    as (Hwritten & _).
  - vm_compute. discriminate.
  - vm_compute. reflexivity.
  - repeat constructor; vm_compute; reflexivity.
  - rewrite Hwritten. reflexivity.
Defined.

(** ** The buffer under ingestion *)

(** X9 (_handle_adxl345_data): ingestion never removes or reorders what
    the buffer holds: the old content is a prefix of the new; the buffer
    grows by one batch per response until it reaches 200000 and never
    beyond, and a buffer already larger is left as it is. *)
Theorem ingest_extends_buffer (ps : list DataParams) (s : ADXL345) :
  firstn (List.length (samples s)) (samples (final (ingest ps) s)) = samples s
  /\ len (samples (final (ingest ps) s))
     = Z.max (len (samples s)) (Z.min 200000 (len (samples s) + len ps)).
Proof.
  rewrite ingest_samples. split.
  - rewrite firstn_app, firstn_all, Nat.sub_diag, firstn_O, app_nil_r.
    reflexivity.
  - rewrite len_app. unfold len.
    rewrite length_firstn, length_batches. lia.
Qed.

(** ** What holds between inputs *)

Lemma sorted_snoc (l : list Z) (x : Z) :
  StronglySorted Z.le l -> Forall (fun q => q <= x) l ->
  StronglySorted Z.le (l ++ [x]).
Proof.
  induction 1 as [|a l Hsorted IH Hhead]; intros Hle; cbn [app].
  - repeat constructor.
  - inversion Hle as [|? ? Ha Hl]; subst. constructor.
    + apply IH. assumption.
    + apply Forall_app. split; [assumption | repeat constructor; assumption].
Qed.

Lemma do_start_final_cases (env : Env) (rate : Z) (s : ADXL345) :
  final (do_start env rate) s = s
  \/ (contains QUERY_RATES rate = true
      /\ final (do_start env rate) s
         = mkADXL345 rate (get_last_move_time env) [] 0
             (get_last_move_time env) (get_last_move_time env)).
Proof.
  unfold final.
  destruct (getitem (bytearray (spi_response env)) 1) as [devid|e] eqn:Hid.
  - rewrite (do_start_run env rate devid s Hid). cbv zeta.
    destruct (devid =? 229); [|left; reflexivity].
    destruct (lookup QUERY_RATES rate) as [code|e] eqn:Hlookup;
      [|left; reflexivity].
    pose proof (lookup_contains _ _ _ Hlookup) as Hin.
    rewrite (valid_rate_period _ Hin). right. split; [exact Hin|reflexivity].
  - left. unfold do_start. mstep. rewrite Hid. reflexivity.
Qed.

Lemma cmd_final_cases (env : Env) (gcmd : option Z) (s : ADXL345) :
  final (cmd_ACCELEROMETER_MEASURE env gcmd) s = s
  \/ final (cmd_ACCELEROMETER_MEASURE env gcmd) s = stopped env s
  \/ exists rate,
       contains QUERY_RATES rate = true
       /\ final (cmd_ACCELEROMETER_MEASURE env gcmd) s
          = mkADXL345 rate (get_last_move_time env) [] 0
              (get_last_move_time env) (get_last_move_time env).
Proof.
  unfold cmd_ACCELEROMETER_MEASURE.
  destruct (get_int_RATE gcmd =? 0).
  - rewrite final_bind.
    assert (Hsame : match outcome (do_end env) s with
                    | Ok _ => final (emit (RespondInfo
                                "adxl345 measurements stopped"))
                                (final (do_end env) s)
                    | Raise _ => final (do_end env) s
                    end = final (do_end env) s)
      by (destruct (outcome (do_end env) s); reflexivity).
    rewrite Hsame, do_end_final.
    destruct (query_rate s =? 0); [left | right; left]; reflexivity.
  - rewrite final_bind. cbn [outcome final gets fst snd].
    destruct (query_rate s =? 0); cbn [negb]; [|left; reflexivity].
    destruct (contains QUERY_RATES (get_int_RATE gcmd)); cbn [negb];
      [|left; reflexivity].
    destruct (do_start_final_cases env (get_int_RATE gcmd) s) as [Hsame|Hnew].
    + left. exact Hsame.
    + right. right. exists (get_int_RATE gcmd). exact Hnew.
Qed.

Lemma dispatch_keeps_invariant (i : input) (s : ADXL345) :
  well_formed i -> session_invariant s ->
  session_invariant (final (dispatch i) s).
Proof.
  intros Hwf (Hrate & Hlen & Hlast & Hbelow & Hsorted).
  destruct i as [env gcmd|env params|params]; cbn [dispatch].
  - destruct (cmd_final_cases env gcmd s) as [->|[->|(rate & Hin & ->)]].
    + repeat split; assumption.
    + unfold session_invariant, stopped.
      cbn [query_rate samples last_sequence map].
      split; [left; reflexivity|]. change (len []) with 0.
      repeat split; try constructor; try assumption; try lia.
    + unfold session_invariant.
      cbn [query_rate samples last_sequence map].
      split; [right; exact Hin|]. change (len []) with 0.
      repeat split; try constructor; try lia.
  - unfold session_invariant. cbn. repeat split; assumption.
  - cbn [well_formed] in Hwf. unfold final. rewrite handle_data_run.
    pose proof (extend_bounds (last_sequence s) (data_sequence params) Hwf)
      as Hext.
    unfold session_invariant.
    cbn [fst snd query_rate samples last_sequence].
    assert (Hbelow' : Forall (fun q => 0 <= q
                              <= extend (last_sequence s) (data_sequence params))
                        (map fst (samples s))).
    { eapply Forall_impl; [|exact Hbelow]. cbn. intros q Hq. lia. }
    rewrite Z.geb_leb.
    destruct (Z.leb_spec 200000 (len (samples s))) as [Hfull|Hroom].
    + repeat split; try assumption; lia.
    + rewrite len_app_one, map_app. cbn [map fst].
      repeat split; try assumption; try lia.
      * apply Forall_app. split; [assumption|]. repeat constructor; lia.
      * apply sorted_snoc; [assumption|].
        eapply Forall_impl; [|exact Hbelow]. cbn. intros q Hq. lia.
Qed.

Lemma run_inputs_keeps_invariant (inputs : list input) (s : ADXL345) :
  Forall well_formed inputs -> session_invariant s ->
  session_invariant (run_inputs inputs s).
Proof.
  revert s. induction inputs as [|i inputs IH]; intros s Hwf Hinv.
  - exact Hinv.
  - inversion Hwf as [|? ? Hi Hrest]; subst. cbn [run_inputs fold_left].
    apply (IH _ Hrest). apply dispatch_keeps_invariant; assumption.
Qed.

(** X10 (__init__, cmd_ACCELEROMETER_MEASURE, _handle_adxl345_start,
    _handle_adxl345_data): whatever commands and responses a new object
    receives, in whatever order and with whatever outcome, between any two
    of them the query rate is 0 or a rate of the table, the buffer holds
    at most 200000 batches, and the stored sequence numbers are
    non-negative, in non-decreasing order and none above [last_sequence]. *)
Theorem session_invariant_holds (inputs : list input) :
  Forall well_formed inputs ->
  session_invariant (run_inputs inputs init).
Proof.
  intros Hwf. apply run_inputs_keeps_invariant; [exact Hwf|].
  unfold session_invariant, init. cbn [query_rate samples last_sequence map].
  split; [left; reflexivity|]. change (len []) with 0.
  repeat split; try constructor; try lia.
Qed.

Lemma session_invariant_holds_witness :
  session_invariant
    (run_inputs
       [ DataResponse {| data_sequence := 65535; data := [] |};
         Gcode (bench [x00; xe5] 2 no_answer) (Some 100);
         DataResponse {| data_sequence := 0; data := eight_samples |};
         StartResponse (bench [] 2 no_answer)
           {| start1_time := 2000; start2_time := 2001 |};
         DataResponse {| data_sequence := 1; data := eight_samples |};
         Gcode (bench [] 3 no_answer) (Some 100);
         Gcode (bench [] 4 no_answer) None ]
       init).
Proof.
  apply session_invariant_holds.
  repeat constructor; cbn; lia.
Defined.

(** ** Reconstruction in closed form *)

Lemma extend_closed_form (last raw : Z) :
  0 <= raw < 65536 -> extend last raw = last + (raw - last) mod 65536.
Proof.
  intros Hr.
  pose proof (extend_bounds last raw Hr) as Hb.
  pose proof (extend_low_bits last raw Hr) as Hl.
  assert (Hmod : (extend last raw - last) mod 65536 = (raw - last) mod 65536).
  { rewrite <- Zminus_mod_idemp_l, Hl. reflexivity. }
  rewrite Z.mod_small in Hmod by lia. lia.
Qed.

(** X11 (_convert_sequence, _handle_adxl345_data): for a 16-bit raw value
    the extended sequence is [last + (raw - last) mod 65536], the one
    number from [last] up to [last + 65535] with those low sixteen bits.
    So when the device's count [t] has run ahead of [last] by a whole
    number [k] of wraps and a rest, what is reconstructed is [t - 65536 k]:
    wraps beyond the assumed one go unnoticed. *)
Theorem reconstruction_closed_form (s : ADXL345) (raw16 t : Z) :
  0 <= raw16 < 65536 ->
  last_sequence s <= t ->
  outcome (_convert_sequence raw16) s
  = Ok (last_sequence s + (raw16 - last_sequence s) mod 65536)
  /\ outcome (_convert_sequence (t mod 65536)) s
     = Ok (t - 65536 * ((t - last_sequence s) / 65536))
  /\ last_sequence
       (final (_handle_adxl345_data {| data_sequence := t mod 65536;
                                       data := [] |}) s)
     = t - 65536 * ((t - last_sequence s) / 65536).
Proof.
  intros Hraw Ht.
  pose proof (Z.mod_pos_bound t 65536 ltac:(lia)) as Hmod.
  assert (Hwraps : extend (last_sequence s) (t mod 65536)
                   = t - 65536 * ((t - last_sequence s) / 65536)).
  { rewrite extend_closed_form by assumption.
    rewrite Zminus_mod_idemp_l.
    pose proof (Z.div_mod (t - last_sequence s) 65536 ltac:(lia)). lia. }
  unfold outcome. rewrite !convert_sequence_run. cbn [fst].
  rewrite handle_data_last_sequence. cbn [data_sequence].
  rewrite extend_closed_form by assumption.
  rewrite Hwraps. repeat split.
Qed.

Lemma reconstruction_closed_form_witness :
  outcome (_convert_sequence (200000 mod 65536))
    (mkADXL345 100 0 [] 3 0 0)
  = Ok (200000 - 65536 * 3).
Proof.
  destruct (reconstruction_closed_form (mkADXL345 100 0 [] 3 0 0) 7 200000)
    as (_ & Hlost & _).
  - lia.
  - cbn. lia.
  - rewrite Hlost. reflexivity.
Defined.

Lemma map_fst_combine {A B} (l : list A) (l' : list B) :
  List.length l = List.length l' -> map fst (combine l l') = l.
Proof.
  revert l'. induction l as [|a l IH]; intros [|b l'] Hlen;
    try reflexivity; try discriminate.
  cbn [combine map fst]. rewrite IH by (cbn in Hlen; lia). reflexivity.
Qed.

Lemma batches_exact (ts : list Z) (ps : list DataParams) (last : Z) :
  Forall2 (fun p t => data_sequence p = t mod 65536) ps ts ->
  one_wrap_apart last ts ->
  batches last ps = combine ts (map data ps).
Proof.
  intros Hraw. revert last.
  induction Hraw as [|p t ps ts Hp Hrest IH]; intros last Hts;
    [reflexivity|].
  destruct Hts as [Ht Hts]. cbn [batches map combine].
  rewrite Hp, extend_exact by assumption.
  rewrite IH by assumption. reflexivity.
Qed.

(** X12 (_handle_adxl345_data): when the device's successive counts are
    each less than one wrap above the one before (the first above the
    context's value), the handler recovers every count from its low
    sixteen bits, and a buffer with room stores the batches under exactly
    those counts, in arrival order. *)
Theorem one_wrap_run_recovered (ts : list Z) (ps : list DataParams)
    (s : ADXL345) :
  Forall2 (fun p t => data_sequence p = t mod 65536) ps ts ->
  one_wrap_apart (last_sequence s) ts ->
  len (samples s) + len ps <= 200000 ->
  observed ps s = ts
  /\ samples (final (ingest ps) s) = samples s ++ combine ts (map data ps).
Proof.
  intros Hraw Hts Hroom.
  pose proof (batches_exact ts ps (last_sequence s) Hraw Hts) as Hbatches.
  assert (Hsame : List.length ps = List.length ts)
    by (eapply Forall2_length; exact Hraw).
  split.
  - rewrite observed_batches, Hbatches.
    rewrite map_fst_combine; [reflexivity|].
    rewrite length_map. symmetry. exact Hsame.
  - rewrite ingest_samples, Hbatches. f_equal.
    apply firstn_all2. rewrite length_combine, length_map.
    unfold len in *. lia.
Qed.

Lemma one_wrap_run_recovered_witness :
  observed [ {| data_sequence := 65535; data := [x01] |};
             {| data_sequence := 2; data := [x02] |} ] init
  = [65535; 65538].
Proof.
  destruct (one_wrap_run_recovered [65535; 65538]
              [ {| data_sequence := 65535; data := [x01] |};
                {| data_sequence := 2; data := [x02] |} ] init)
    as (Hobserved & _).
  - repeat constructor.
  - cbn. lia.
  - vm_compute. discriminate.
  - exact Hobserved.
Defined.

(** ** The decoder as a code *)

Lemma byte_int_inj (a b : byte) : byte_int a = byte_int b -> a = b.
Proof.
  unfold byte_int. intros H. apply N2Z.inj in H.
  pose proof (Byte.of_to_N a) as Ha. rewrite H, Byte.of_to_N in Ha.
  congruence.
Qed.

Lemma byte_of_int (n : Z) : 0 <= n < 256 -> exists b, byte_int b = n.
Proof.
  intros Hn. destruct (Byte.of_N (Z.to_N n)) as [b|] eqn:Hb.
  - exists b. unfold byte_int. rewrite (Byte.to_of_N _ Hb). lia.
  - apply Byte.of_N_None_iff in Hb. lia.
Qed.

Lemma axis_raw_pair (lo hi : byte) :
  axis_raw (bytearray [lo; hi]) 0
  = Ok (signed16 (word16 (byte_int lo) (byte_int hi))).
Proof.
  rewrite axis_raw_ok; [reflexivity | lia | vm_compute; reflexivity].
Qed.

(** X13 (do_end, the [sdata] expression): the decoding of an axis field
    loses nothing and misses nothing: two byte pairs that decode to the
    same integer are the same pair, every decoded integer lies in
    -32768..32767, and every integer of that range is the decoding of
    some byte pair. *)
Theorem axis_decoding_bijective :
  (forall lo hi lo' hi' : byte,
      axis_raw (bytearray [lo; hi]) 0 = axis_raw (bytearray [lo'; hi']) 0 ->
      lo = lo' /\ hi = hi')
  /\ (forall (lo hi : byte) (v : Z),
        axis_raw (bytearray [lo; hi]) 0 = Ok v -> -32768 <= v < 32768)
  /\ (forall v : Z,
        -32768 <= v < 32768 ->
        exists lo hi : byte, axis_raw (bytearray [lo; hi]) 0 = Ok v).
Proof.
  split; [|split].
  - intros lo hi lo' hi'. rewrite !axis_raw_pair. intros Heq.
    injection Heq as Heq. unfold signed16, word16 in Heq.
    pose proof (byte_int_range lo). pose proof (byte_int_range hi).
    pose proof (byte_int_range lo'). pose proof (byte_int_range hi').
    destruct (Z.ltb_spec (byte_int lo + 256 * byte_int hi) 32768);
      destruct (Z.ltb_spec (byte_int lo' + 256 * byte_int hi') 32768);
      split; apply byte_int_inj; lia.
  - intros lo hi v. rewrite axis_raw_pair. intros Heq.
    injection Heq as <-. unfold signed16, word16.
    pose proof (byte_int_range lo). pose proof (byte_int_range hi).
    destruct (Z.ltb_spec (byte_int lo + 256 * byte_int hi) 32768); lia.
  - intros v Hv.
    pose proof (Z.mod_pos_bound v 65536 ltac:(lia)) as Hu.
    pose proof (Z.div_mod v 65536 ltac:(lia)) as Hdm.
    pose proof (Z.mod_pos_bound (v mod 65536) 256 ltac:(lia)) as Hlo.
    pose proof (Z.div_mod (v mod 65536) 256 ltac:(lia)) as Hsplit.
    assert (Hhi : 0 <= v mod 65536 / 256 < 256)
      by (split; [apply Z.div_pos; lia | apply Z.div_lt_upper_bound; lia]).
    destruct (byte_of_int _ Hlo) as [lo Hlo'].
    destruct (byte_of_int _ Hhi) as [hi Hhi'].
    exists lo, hi. rewrite axis_raw_pair, Hlo', Hhi'. f_equal.
    unfold signed16, word16.
    destruct (Z.ltb_spec (v mod 65536 mod 256 + 256 * (v mod 65536 / 256))
                32768); lia.
Qed.

Lemma physical_at_app (payload extra : list byte) (k : Z) :
  0 <= k -> k * 2 + 1 < len payload ->
  physical_at (payload ++ extra) k = physical_at payload k.
Proof.
  intros Hk Hlen. unfold physical_at, axis_value, byte_at.
  unfold len in Hlen. rewrite !app_nth1 by lia. reflexivity.
Qed.

(** X14 (do_end): the bytes of a batch that follow its last complete
    6-byte group yield no row and change none: a payload of whole groups
    followed by fewer than six more bytes is written out exactly as the
    payload alone. *)
Theorem trailing_bytes_ignored (fine_start seq_to_time sample_to_time : float)
    (seq : Z) (payload extra : list byte) (actual_count : Z) (s : ADXL345) :
  len payload mod 6 = 0 ->
  len extra < 6 ->
  convertible seq ->
  convertible (len (payload ++ extra)) ->
  write_batch fine_start seq_to_time sample_to_time (seq, payload ++ extra)
    actual_count s
  = write_batch fine_start seq_to_time sample_to_time (seq, payload)
      actual_count s.
Proof.
  intros Hwhole Hextra Hseq Hlen.
  assert (Hpos : 0 <= len payload /\ 0 <= len extra) by (unfold len; lia).
  pose proof (Z.div_mod (len payload) 6 ltac:(lia)) as Hdm.
  assert (Hgroups : groups (seq, payload ++ extra) = groups (seq, payload)).
  { unfold groups. cbn [snd]. rewrite len_app.
    rewrite Hwhole, Z.add_0_r in Hdm.
    rewrite Hdm at 1. rewrite Z.add_comm, Z.mul_comm, Z.div_add by lia.
    rewrite (Z.div_small (len extra)) by lia. reflexivity. }
  rewrite !write_batch_run.
  - rewrite Hgroups. f_equal. apply map_ext_in. intros j Hj.
    apply in_range in Hj. unfold groups in Hj. cbn [snd fst] in *.
    rewrite !physical_at_app by lia. reflexivity.
  - split; [exact Hseq|]. cbn [snd].
    rewrite len_app in Hlen. unfold convertible in *.
    rewrite Z.abs_eq in * by lia. lia.
  - split; assumption.
Qed.

Lemma trailing_bytes_ignored_witness :
  write_batch 10 0.008 0.001 (3, eight_samples ++ [x01; x02; x03]) 0 init
  = write_batch 10 0.008 0.001 (3, eight_samples) 0 init.
Proof.
  apply trailing_bytes_ignored; vm_compute; reflexivity.
Defined.

(** ** A whole capture *)

Lemma do_start_ok_final (env : Env) (rate : Z) (s : ADXL345) :
  outcome (do_start env rate) s = Ok tt ->
  rate <> 0
  /\ final (do_start env rate) s
     = mkADXL345 rate (get_last_move_time env) [] 0
         (get_last_move_time env) (get_last_move_time env).
Proof.
  unfold outcome, final.
  destruct (getitem (bytearray (spi_response env)) 1) as [devid|e] eqn:Hid.
  - rewrite (do_start_run env rate devid s Hid). cbv zeta.
    destruct (devid =? 229); [|discriminate].
    destruct (lookup QUERY_RATES rate) as [code|e] eqn:Hlookup;
      [|discriminate].
    pose proof (lookup_contains _ _ _ Hlookup) as Hin.
    rewrite (valid_rate_period _ Hin). cbn [fst snd]. intros _.
    split; [|reflexivity]. intros ->. discriminate Hin.
  - unfold do_start. mstep. rewrite Hid. discriminate.
Qed.

Lemma ingest_query_rate (ps : list DataParams) (s : ADXL345) :
  query_rate (final (ingest ps) s) = query_rate s.
Proof.
  revert s. induction ps as [|p ps IH]; intros s; [reflexivity|].
  rewrite ingest_cons, IH. unfold final. rewrite handle_data_run.
  reflexivity.
Qed.

Lemma batches_consecutive (ps : list DataParams) (first last : Z) :
  consecutive_full first ps ->
  last <= first < last + 65536 -> 0 <= first ->
  Forall (fun b => groups b = 8 /\ len (snd b) = 48
                   /\ 0 <= fst b < first + len ps)
    (batches last ps)
  /\ (ps <> [] ->
      fold_left (fun l p => extend l (data_sequence p)) ps last
      = first + len ps - 1).
Proof.
  revert first last. induction ps as [|p ps IH]; intros first last Hps Hnear Hpos.
  - split; [constructor | congruence].
  - destruct Hps as (Hseq & Hlen & Hrest).
    assert (Hext : extend last (data_sequence p) = first)
      by (rewrite Hseq; apply extend_exact; exact Hnear).
    destruct (IH (first + 1) first Hrest ltac:(lia) ltac:(lia))
      as (Hall & Hfold).
    assert (Hcons : len (p :: ps) = len ps + 1)
      by (unfold len; cbn [List.length]; lia).
    assert (Hnonneg : 0 <= len ps) by (unfold len; lia).
    cbn [batches fold_left]. rewrite Hext, Hcons. split.
    + constructor.
      * unfold groups. cbn [fst snd]. rewrite Hlen.
        repeat split; try reflexivity; lia.
      * eapply Forall_impl; [|exact Hall]. cbn beta.
        intros b (Hg & Hl & Hb). repeat split; try assumption; lia.
    + intros _. destruct ps as [|q ps'].
      * cbn [fold_left]. change (len []) with 0. lia.
      * rewrite Hfold by discriminate. lia.
Qed.

Lemma Forall_firstn_of {A} (P : A -> Prop) (n : nat) (l : list A) :
  Forall P l -> Forall P (firstn n l).
Proof.
  intros Hl. rewrite <- (firstn_skipn n l) in Hl.
  apply Forall_app in Hl. apply Hl.
Qed.

Lemma Zsum_full_groups (l : list (Z * list byte)) :
  Forall (fun b => groups b = 8) l -> Zsum (map groups l) = 8 * len l.
Proof.
  induction 1 as [|b l Hb Hl IH]; [reflexivity|].
  cbn [map Zsum fold_right]. fold (Zsum (map groups l)).
  rewrite IH, Hb. unfold len. cbn [List.length]. lia.
Qed.

(** X15 (do_start, _handle_adxl345_data, do_end): a capture that starts,
    receives the device's batches numbered from 0 without a gap, each of
    eight samples, and stops with the device's count of batches as end
    sequence, stops normally with a total count of eight per batch sent;
    the rows written are eight per batch retained, so nothing is reported
    dropped up to 200000 batches and, beyond, exactly the samples of the
    batches the cap turned away. *)
Theorem clean_capture_counts (env_start env_stop : Env) (rate : Z)
    (s : ADXL345) (ps : list DataParams) :
  outcome (do_start env_start rate) s = Ok tt ->
  consecutive_full 0 ps ->
  1 <= len ps < 2 ^ 32 ->
  end_sequence (query_end_response env_stop) = len ps mod 65536 ->
  let s' := final (ingest ps) (final (do_start env_start rate) s) in
  let kept := Z.min (len ps) 200000 in
  outcome (do_end env_stop) s' = Ok tt
  /\ len (filter is_row (emitted (do_end env_stop) s')) = 8 * kept
  /\ In (FileWrite (LCount (8 * len ps) (8 * kept) (8 * (len ps - kept))))
       (emitted (do_end env_stop) s').
Proof.
  intros Hstart Hps Hn Hend s' kept.
  destruct (do_start_ok_final env_start rate s Hstart) as (Hrate & Hfresh).
  assert (Hnonempty : ps <> [])
    by (intros ->; change (len []) with 0 in Hn; lia).
  destruct (batches_consecutive ps 0 0 Hps ltac:(lia) ltac:(lia))
    as (Hall & Hfold).
  specialize (Hfold Hnonempty).
  assert (Hsamples : samples s' = firstn (Z.to_nat 200000) (batches 0 ps)).
  { unfold s'. rewrite ingest_samples, Hfresh.
    cbn [samples last_sequence app]. change (len []) with 0.
    rewrite Z.sub_0_r. reflexivity. }
  assert (Hlast : last_sequence s' = len ps - 1).
  { unfold s'. rewrite ingest_last_sequence, Hfresh.
    cbn [last_sequence]. rewrite Hfold. lia. }
  assert (Hrun : query_rate s' <> 0).
  { unfold s'. rewrite ingest_query_rate, Hfresh. exact Hrate. }
  assert (Hkept : len (samples s') = kept).
  { rewrite Hsamples. unfold len, kept.
    rewrite length_firstn, length_batches. unfold len. lia. }
  assert (Hall' : Forall (fun b => groups b = 8 /\ len (snd b) = 48
                                   /\ 0 <= fst b < 0 + len ps) (samples s')).
  { rewrite Hsamples. apply Forall_firstn_of. exact Hall. }
  assert (Hsome : samples s' <> []).
  { intros Hnil. rewrite Hnil in Hkept. change (len []) with 0 in Hkept.
    unfold kept in Hkept. lia. }
  destruct (exists_last Hsome) as (front & last_batch & Hsplit).
  assert (Hgroups : groups last_batch = 8).
  { rewrite Hsplit in Hall'. apply Forall_app in Hall'.
    destruct Hall' as (_ & Hl). inversion Hl as [|? ? (Hg & _) _]; subst.
    exact Hg. }
  assert (Hendseq : end_seq_of env_stop s' = len ps).
  { unfold end_seq_of. rewrite Hlast, Hend. apply extend_exact. lia. }
  assert (Htotal : total_count_of (end_seq_of env_stop s') last_batch
                   = 8 * len ps).
  { unfold total_count_of. rewrite Hendseq, Hgroups. lia. }
  assert (H32 : 2 ^ 32 = 4294967296) by reflexivity.
  assert (H64 : 2 ^ 64 = 18446744073709551616) by reflexivity.
  pose proof FLOAT_INT_LIMIT_large as Hlimit.
  assert (Hdone : do_end env_stop s'
                  = (Ok tt, stopped env_stop s',
                     stop_query env_stop :: report env_stop s' last_batch)).
  { apply (do_end_run env_stop s' front last_batch);
      try assumption.
    - rewrite Htotal. lia.
    - rewrite Htotal. unfold convertible. rewrite Z.abs_eq by lia. lia.
    - eapply Forall_impl; [|exact Hall']. cbn beta.
      intros b (_ & Hl & Hb). split; unfold convertible.
      + rewrite Z.abs_eq by lia. lia.
      + rewrite Hl. cbn [Z.abs]. lia. }
  assert (Hactual : Zsum (map groups (samples s')) = 8 * kept).
  { rewrite Zsum_full_groups, Hkept; [reflexivity|].
    eapply Forall_impl; [|exact Hall']. cbn beta. intros b (Hg & _).
    exact Hg. }
  unfold outcome, emitted. rewrite Hdone. cbn [fst snd].
  split; [reflexivity|]. split.
  - unfold stop_query, report. cbn [app filter is_row].
    rewrite filter_app. cbn [filter is_row]. rewrite app_nil_r.
    rewrite rows_of_report. exact Hactual.
  - right. unfold report. rewrite Htotal, Hactual.
    apply in_or_app. right. apply in_or_app. right.
    replace (8 * len ps - 8 * kept) with (8 * (len ps - kept)) by lia.
    left. reflexivity.
Qed.

Lemma clean_capture_counts_witness :
  let ps := [ {| data_sequence := 0; data := eight_samples |};
              {| data_sequence := 1; data := eight_samples |};
              {| data_sequence := 2; data := eight_samples |} ] in
  let env_stop :=
    bench [] 6 {| end1_time := 5230; end2_time := 5240; limit_count := 0;
                  end_sequence := 3 |} in
  let s' := final (ingest ps)
              (final (do_start (bench [x00; xe5] 5 no_answer) 100) init) in
  outcome (do_end env_stop) s' = Ok tt
  /\ len (filter is_row (emitted (do_end env_stop) s')) = 24
  /\ In (FileWrite (LCount 24 24 0)) (emitted (do_end env_stop) s').
Proof.
  intros ps env_stop s'.
  assert (Hstart : outcome (do_start (bench [x00; xe5] 5 no_answer) 100) init
                   = Ok tt) by (vm_compute; reflexivity).
  assert (Hps : consecutive_full 0 ps)
    by (repeat split; vm_compute; reflexivity).
  assert (Hn : 1 <= len ps < 2 ^ 32) by (vm_compute; split; congruence).
  destruct (clean_capture_counts (bench [x00; xe5] 5 no_answer) env_stop 100
              init ps Hstart Hps Hn eq_refl) as (Hok & Hrows & Hcount).
  split; [exact Hok|]. split; [exact Hrows | exact Hcount].
Defined.
